(** * Pranayama breath timer: the session state machine of [script.js]

    A shallow embedding of the timer core of [src/script.js] (the phase
    cycle, the session life cycle, the history ledger, the per-day
    progress map and the session summaries), followed by the properties
    the specification states about it.

    Modelling conventions.
    - A JavaScript number that holds an integer is a [Z]; the infinities
      are the integers [2^1024] and [-2^1024]; [NaN] (the only other
      number the modelled code can produce) is [None] in an [option Z].
      [parseInt] gives the double nearest to the integer it reads.
    - A string is the sequence of its UTF-8 bytes.
    - A [Date] is its time value, a [Z] count of milliseconds since the
      epoch; an ISO string stands for the instant it denotes.  The device
      is in a zone with a fixed offset [tz] (milliseconds east of UTC).
      The clock gives instants a [Date] can hold; a date computed from a
      range typed by the user may be an Invalid Date.
    - A locale date string (the key of [progressData]) is an injective
      rendering of the local calendar day, so a day key is the local day
      number.
    - The interval armed by [setInterval] is the closure it runs; the only
      variable that closure captures is [current], so [timerId] is
      [Some current] while an interval is armed and [None] otherwise.
    - An uncaught [TypeError] (reading a property of [undefined]) is
      [None] in [option State].
    - The speech, the chart and the history list of the page receive data
      and give nothing back; they are left out, and are taken to be there
      and not to throw.

    The handlers are embedded twice.  First as a machine in which a
    handler reads the clock as one instant [now], every write to storage
    returns, and the counters are exact integers: the engine as it runs
    on a good day.  Then, in [IO], with each reading of the clock on its
    own, each write to storage returning or throwing, and the counters
    the doubles they are: the engine as the browser runs it.  A property
    that a throwing write, a midnight between two readings of the clock
    or a number past [2^53] could break is stated of the second. *)

From Stdlib Require Import ZArith String Ascii List Lia Bool DecimalString.
From stdpp Require Import gmap strings list.
Import ListNotations.
Open Scope Z_scope.

(** ** JavaScript primitives used by the script *)

Module JS.

Definition byte (c : ascii) : Z := Z.of_nat (nat_of_ascii c).

(** The white space and line terminators [parseInt] skips.  Those of one
    byte: TAB, LF, VT, FF, CR, SP. *)
Definition isWhiteSpace (c : ascii) : bool :=
  let n := byte c in
  ((9 <=? n) && (n <=? 13)) || (n =? 32).

(** U+00A0, bytes C2 A0. *)
Definition isWhiteSpace2 (c1 c2 : ascii) : bool :=
  (byte c1 =? 194) && (byte c2 =? 160).

(** U+1680 (E1 9A 80); U+2000 to U+200A, U+2028, U+2029 and U+202F
    (E2 80 80 to 8A, A8, A9, AF); U+205F (E2 81 9F); U+3000 (E3 80 80);
    U+FEFF (EF BB BF). *)
Definition isWhiteSpace3 (c1 c2 c3 : ascii) : bool :=
  let a := byte c1 in
  let b := byte c2 in
  let c := byte c3 in
  ((a =? 225) && (b =? 154) && (c =? 128))
  || ((a =? 226) && (b =? 128)
      && (((128 <=? c) && (c <=? 138)) || (c =? 168) || (c =? 169)
          || (c =? 175)))
  || ((a =? 226) && (b =? 129) && (c =? 159))
  || ((a =? 227) && (b =? 128) && (c =? 128))
  || ((a =? 239) && (b =? 187) && (c =? 191)).

Fixpoint trimStart (s : string) : string :=
  match s with
  | String c1 r1 =>
      if isWhiteSpace c1 then trimStart r1 else
      match r1 with
      | String c2 r2 =>
          if isWhiteSpace2 c1 c2 then trimStart r2 else
          match r2 with
          | String c3 r3 =>
              if isWhiteSpace3 c1 c2 c3 then trimStart r3 else s
          | EmptyString => s
          end
      | EmptyString => s
      end
  | EmptyString => EmptyString
  end.

(** Value of a character as a digit: [0-9] then [a-z] / [A-Z] for 10..35. *)
Definition digitValue (c : ascii) : option Z :=
  let n := Z.of_nat (nat_of_ascii c) in
  if (48 <=? n) && (n <=? 57) then Some (n - 48)
  else if (97 <=? n) && (n <=? 122) then Some (n - 87)
  else if (65 <=? n) && (n <=? 90) then Some (n - 55)
  else None.

(** The longest prefix of radix-[R] digits, read as a number; [acc] is
    [None] until a first digit has been seen. *)
Fixpoint parseDigits (R : Z) (s : string) (acc : option Z) : option Z :=
  match s with
  | String c r =>
      match digitValue c with
      | Some d =>
          if d <? R then parseDigits R r (Some (default 0 acc * R + d))
          else acc
      | None => acc
      end
  | EmptyString => acc
  end.

Definition stripSign (s : string) : Z * string :=
  match s with
  | String "-"%char r => (-1, r)
  | String "+"%char r => (1, r)
  | _ => (1, s)
  end.

Definition drop2 (s : string) : string :=
  match s with
  | String _ (String _ r) => r
  | _ => EmptyString
  end.

Definition hasHexPrefix (s : string) : bool :=
  match s with
  | String "0"%char (String "x"%char _) | String "0"%char (String "X"%char _) => true
  | _ => false
  end.

(** [+Infinity] is kept as the integer [2^1024], the first power of two
    past every finite double, and [-Infinity] as its opposite. *)
Definition infinity : Z := 2 ^ 1024.

(** The double nearest to a natural number [m], halves to the even
    significand: below [2^53] every integer is a double; above, a double
    keeps the 53 leading bits. *)
Definition roundAbs (m : Z) : Z :=
  if m <? 2 ^ 53 then m else
  let e := Z.log2 m - 52 in
  let q := m / 2 ^ e in
  let r := m mod 2 ^ e in
  let half := 2 ^ (e - 1) in
  let q' := if r <? half then q
            else if half <? r then q + 1
            else if Z.even q then q else q + 1 in
  if infinity <=? q' * 2 ^ e then infinity else q' * 2 ^ e.

(** The Number an integer is stored as. *)
Definition toDouble (z : Z) : Z :=
  if z <? 0 then - roundAbs (- z) else roundAbs z.

(** [parseInt(string, radix)]; [radix = 0] is the omitted argument.
    [None] is [NaN].  The result is the double nearest to the integer
    read (for a decimal numeral of more than 20 significant digits the
    language lets an engine drop the digits past the 20th first; the
    engine is taken not to). *)
Definition parseInt (str : string) (radix : Z) : option Z :=
  let '(sign, rest) := stripSign (trimStart str) in
  let number (digits : option Z) := toDouble <$> (Z.mul sign <$> digits) in
  if (radix =? 0) || (radix =? 16) then
    if hasHexPrefix rest
    then number (parseDigits 16 (drop2 rest) None)
    else number (parseDigits (if radix =? 0 then 10 else 16) rest None)
  else if (radix <? 2) || (36 <? radix) then None
  else number (parseDigits radix rest None).

(** [x || d] on a number: [NaN] and [0] are falsy. *)
Definition orElse (x : option Z) (d : Z) : Z :=
  match x with
  | Some 0 | None => d
  | Some v => v
  end.

(** The decimal digits of an integer. *)
Definition decimal (n : Z) : string :=
  NilZero.string_of_int (Z.to_int n).

Definition digits (m : Z) : Z := Z.of_nat (String.length (decimal m)).

(** The ways to write the double [m] with [k] digits: pairs [(s, n)] where
    [s] has [k] digits and [s * 10^(n-k)] is a number stored as [m]. *)
Definition candidates (m k : Z) : list (Z * Z) :=
  let n := digits m in
  let p := 10 ^ (n - k) in
  List.filter
    (fun sn => let '(s, n') := sn in
               (10 ^ (k - 1) <=? s) && (s <? 10 ^ k)
               && (toDouble (s * 10 ^ (n' - k)) =? m))
    [(m / p, n); (m / p + 1, n); (10 ^ (k - 1), n + 1)].

Definition distance (m k : Z) (sn : Z * Z) : Z :=
  Z.abs (fst sn * 10 ^ (snd sn - k) - m).

(** The candidate closest to [m], one with an even [s] on a tie. *)
Definition closest (m k : Z) (l : list (Z * Z)) : option (Z * Z) :=
  List.fold_left
    (fun best sn =>
       match best with
       | None => Some sn
       | Some b =>
           if distance m k sn <? distance m k b then Some sn
           else if (distance m k sn =? distance m k b) && Z.even (fst sn)
                   && negb (Z.even (fst b)) then Some sn
           else best
       end) l None.

(** The fewest digits that tell [m] from its neighbours. *)
Fixpoint shortest (m : Z) (ks : list Z) : option (Z * Z * Z) :=
  match ks with
  | [] => None
  | k :: rest =>
      match closest m k (candidates m k) with
      | Some (s, n) => Some (k, s, n)
      | None => shortest m rest
      end
  end.

(** [String(m)] for a double [m >= 1e21]: digits, exponent. *)
Definition exponential (m : Z) : string :=
  match shortest m [1;2;3;4;5;6;7;8;9;10;11;12;13;14;15;16;17] with
  | Some (k, s, n) =>
      match decimal s with
      | String d rest =>
          String d (if k =? 1 then EmptyString else String "."%char rest)
          +:+ "e+" +:+ decimal (n - 1)
      | EmptyString => EmptyString
      end
  | None => EmptyString
  end.

(** [String(x)] for a Number [x] that is an integer or an infinity. *)
Definition toString (x : Z) : string :=
  if infinity <=? x then "Infinity"
  else if x <=? - infinity then "-Infinity"
  else if Z.abs x <? 10 ^ 21 then decimal x
  else if x <? 0 then String "-"%char (exponential (- x))
  else exponential x.

(** [s.padStart(2, "0")]. *)
Definition padStart2 (s : string) : string :=
  match String.length s with
  | O => "00"
  | S O => String "0"%char s
  | _ => s
  end.

Definition lowerChar (c : ascii) : ascii :=
  let n := nat_of_ascii c in
  if (Nat.leb 65 n && Nat.leb n 90)%bool then ascii_of_nat (n + 32) else c.

Fixpoint toLowerCase (s : string) : string :=
  match s with
  | String c r => String (lowerChar c) (toLowerCase r)
  | EmptyString => EmptyString
  end.

(** [Math.round(x / 1000)] for an integer [x]: nearest, halves upwards. *)
Definition roundDiv1000 (x : Z) : Z := (x + 500) / 1000.

End JS.

(** ** Data model *)

(** An element of [cycle]: [{ phase, duration }]. *)
Module Phase.
Record t := mk { phase : string; duration : Z }.
End Phase.

(** An element of [historyData]: [{ ts, phase, duration, text }]. *)
Module Entry.
Record t := mk { ts : Z; phase : string; duration : Z; text : string }.
End Entry.

(** An element of [sessionSummaries]. *)
Module Summary.
Record t := mk {
  startISO : Z; endISO : Z; cycles : Z; durationSec : Z;
  inhale : Z; hold : Z; exhale : Z
}.
End Summary.

(** The module-level variables of the script, with the [value] of the three
    duration inputs and the text of the three elements the timer writes. *)
Record State := mkState {
  cycle : list Phase.t;
  cycleIndex : Z;
  timeLeft : Z;
  timerId : option Phase.t;
  running : bool;
  paused : bool;
  sessionStartTime : option Z;
  sessionCycles : Z;
  sessionActive : bool;
  historyData : list Entry.t;
  sessionSummaries : list Summary.t;
  progressData : gmap Z Z;
  inhaleInput : string;
  holdInput : string;
  exhaleInput : string;
  phaseDisplay : string;
  timeDisplay : string;
  pauseBtn : string
}.

(** Assignment to one variable: every other one keeps its value. *)
Definition set_cycle (v : list Phase.t) (s : State) : State :=
  let 'mkState f1 f2 f3 f4 f5 f6 f7 f8 f9 f10 f11 f12 f13 f14 f15 f16 f17 f18
  := s in
  mkState v f2 f3 f4 f5 f6 f7 f8 f9 f10 f11 f12 f13 f14 f15 f16 f17 f18.

Definition set_cycleIndex (v : Z) (s : State) : State :=
  let 'mkState f1 f2 f3 f4 f5 f6 f7 f8 f9 f10 f11 f12 f13 f14 f15 f16 f17 f18
  := s in
  mkState f1 v f3 f4 f5 f6 f7 f8 f9 f10 f11 f12 f13 f14 f15 f16 f17 f18.

Definition set_timeLeft (v : Z) (s : State) : State :=
  let 'mkState f1 f2 f3 f4 f5 f6 f7 f8 f9 f10 f11 f12 f13 f14 f15 f16 f17 f18
  := s in
  mkState f1 f2 v f4 f5 f6 f7 f8 f9 f10 f11 f12 f13 f14 f15 f16 f17 f18.

Definition set_timerId (v : option Phase.t) (s : State) : State :=
  let 'mkState f1 f2 f3 f4 f5 f6 f7 f8 f9 f10 f11 f12 f13 f14 f15 f16 f17 f18
  := s in
  mkState f1 f2 f3 v f5 f6 f7 f8 f9 f10 f11 f12 f13 f14 f15 f16 f17 f18.

Definition set_running (v : bool) (s : State) : State :=
  let 'mkState f1 f2 f3 f4 f5 f6 f7 f8 f9 f10 f11 f12 f13 f14 f15 f16 f17 f18
  := s in
  mkState f1 f2 f3 f4 v f6 f7 f8 f9 f10 f11 f12 f13 f14 f15 f16 f17 f18.

Definition set_paused (v : bool) (s : State) : State :=
  let 'mkState f1 f2 f3 f4 f5 f6 f7 f8 f9 f10 f11 f12 f13 f14 f15 f16 f17 f18
  := s in
  mkState f1 f2 f3 f4 f5 v f7 f8 f9 f10 f11 f12 f13 f14 f15 f16 f17 f18.

Definition set_sessionStartTime (v : option Z) (s : State) : State :=
  let 'mkState f1 f2 f3 f4 f5 f6 f7 f8 f9 f10 f11 f12 f13 f14 f15 f16 f17 f18
  := s in
  mkState f1 f2 f3 f4 f5 f6 v f8 f9 f10 f11 f12 f13 f14 f15 f16 f17 f18.

Definition set_sessionCycles (v : Z) (s : State) : State :=
  let 'mkState f1 f2 f3 f4 f5 f6 f7 f8 f9 f10 f11 f12 f13 f14 f15 f16 f17 f18
  := s in
  mkState f1 f2 f3 f4 f5 f6 f7 v f9 f10 f11 f12 f13 f14 f15 f16 f17 f18.

Definition set_sessionActive (v : bool) (s : State) : State :=
  let 'mkState f1 f2 f3 f4 f5 f6 f7 f8 f9 f10 f11 f12 f13 f14 f15 f16 f17 f18
  := s in
  mkState f1 f2 f3 f4 f5 f6 f7 f8 v f10 f11 f12 f13 f14 f15 f16 f17 f18.

Definition set_historyData (v : list Entry.t) (s : State) : State :=
  let 'mkState f1 f2 f3 f4 f5 f6 f7 f8 f9 f10 f11 f12 f13 f14 f15 f16 f17 f18
  := s in
  mkState f1 f2 f3 f4 f5 f6 f7 f8 f9 v f11 f12 f13 f14 f15 f16 f17 f18.

Definition set_sessionSummaries (v : list Summary.t) (s : State) : State :=
  let 'mkState f1 f2 f3 f4 f5 f6 f7 f8 f9 f10 f11 f12 f13 f14 f15 f16 f17 f18
  := s in
  mkState f1 f2 f3 f4 f5 f6 f7 f8 f9 f10 v f12 f13 f14 f15 f16 f17 f18.

Definition set_progressData (v : gmap Z Z) (s : State) : State :=
  let 'mkState f1 f2 f3 f4 f5 f6 f7 f8 f9 f10 f11 f12 f13 f14 f15 f16 f17 f18
  := s in
  mkState f1 f2 f3 f4 f5 f6 f7 f8 f9 f10 f11 v f13 f14 f15 f16 f17 f18.

Definition set_inhaleInput (v : string) (s : State) : State :=
  let 'mkState f1 f2 f3 f4 f5 f6 f7 f8 f9 f10 f11 f12 f13 f14 f15 f16 f17 f18
  := s in
  mkState f1 f2 f3 f4 f5 f6 f7 f8 f9 f10 f11 f12 v f14 f15 f16 f17 f18.

Definition set_holdInput (v : string) (s : State) : State :=
  let 'mkState f1 f2 f3 f4 f5 f6 f7 f8 f9 f10 f11 f12 f13 f14 f15 f16 f17 f18
  := s in
  mkState f1 f2 f3 f4 f5 f6 f7 f8 f9 f10 f11 f12 f13 v f15 f16 f17 f18.

Definition set_exhaleInput (v : string) (s : State) : State :=
  let 'mkState f1 f2 f3 f4 f5 f6 f7 f8 f9 f10 f11 f12 f13 f14 f15 f16 f17 f18
  := s in
  mkState f1 f2 f3 f4 f5 f6 f7 f8 f9 f10 f11 f12 f13 f14 v f16 f17 f18.

Definition set_phaseDisplay (v : string) (s : State) : State :=
  let 'mkState f1 f2 f3 f4 f5 f6 f7 f8 f9 f10 f11 f12 f13 f14 f15 f16 f17 f18
  := s in
  mkState f1 f2 f3 f4 f5 f6 f7 f8 f9 f10 f11 f12 f13 f14 f15 v f17 f18.

Definition set_timeDisplay (v : string) (s : State) : State :=
  let 'mkState f1 f2 f3 f4 f5 f6 f7 f8 f9 f10 f11 f12 f13 f14 f15 f16 f17 f18
  := s in
  mkState f1 f2 f3 f4 f5 f6 f7 f8 f9 f10 f11 f12 f13 f14 f15 f16 v f18.

Definition set_pauseBtn (v : string) (s : State) : State :=
  let 'mkState f1 f2 f3 f4 f5 f6 f7 f8 f9 f10 f11 f12 f13 f14 f15 f16 f17 f18
  := s in
  mkState f1 f2 f3 f4 f5 f6 f7 f8 f9 f10 f11 f12 f13 f14 f15 f16 f17 v.

Notation "s |> f" := (f s) (at level 45, left associativity, only parsing).

(** The state the script is in once [init] has run on empty storage.  The
    page's markup is not part of the script: the text of the three inputs
    and the label of the pause button are taken as given. *)
Definition init (inh hol exh pauseLabel : string) : State :=
  mkState [] 0 0 None false false None 0 false [] [] ∅
          inh hol exh "Press Start" "00" pauseLabel.

(** ** Calendar *)

Definition msPerDay : Z := 86400000.

(** A [Date] holds a time value of at most 8.64e15 ms on either side of the
    epoch; any other time value makes it an Invalid Date. *)
Definition maxTime : Z := 8640000000000000.

Definition validTime (t : Z) : bool := (- maxTime <=? t) && (t <=? maxTime).



Section Timer.

(** Offset of the device's zone, in milliseconds east of UTC. *)
Variable tz : Z.

(** Local day number of an instant: what [toLocaleDateString] and
    [toDateString] render. *)
Definition localDay (t : Z) : Z := (t + tz) / msPerDay.

(** [dateKeyFromISO(tsISO)] and [(new Date()).toLocaleDateString()]. *)
Definition dateKeyFromISO (t : Z) : Z := localDay t.

(** [d.setDate(d.getDate() - k)]: the same local time, [k] days earlier. *)
Definition minusDays (t k : Z) : Z := t - k * msPerDay.

(** [new Date(d.toDateString())]: local midnight of the day of [d]. *)
Definition startOfDay (t : Z) : Z := localDay t * msPerDay - tz.


(** ** Core timer logic *)

(** [cycle[i]]: [None] is [undefined]. *)
Definition at_index (l : list Phase.t) (i : Z) : option Phase.t :=
  if i <? 0 then None else l !! Z.to_nat i.

(** [x % n] for integers; [None] is the [NaN] of a zero modulus. *)
Definition jsRem (x n : Z) : option Z :=
  if n =? 0 then None else Some (Z.rem x n).

Definition setupCycleFromInputs (s : State) : State :=
  let inhale := Z.max 1 (JS.orElse (JS.parseInt (inhaleInput s) 0) 4) in
  let hold := Z.max 1 (JS.orElse (JS.parseInt (holdInput s) 0) 7) in
  let exhale := Z.max 1 (JS.orElse (JS.parseInt (exhaleInput s) 0) 8) in
  s |> set_cycle [ Phase.mk "Inhale" inhale;
                   Phase.mk "Hold" hold;
                   Phase.mk "Exhale" exhale ].

(** The part of [startPhase] that runs at once: it shows the phase and arms
    the interval, whose callback is [tick] below. *)
Definition startPhase (s : State) : option State :=
  current ← at_index (cycle s) (cycleIndex s);
  Some (s |> set_phaseDisplay (Phase.phase current)
          |> set_timeDisplay (JS.padStart2 (JS.toString (Phase.duration current)))
          |> set_timeLeft (Phase.duration current)
          |> set_timerId (Some current)).

Definition startCycle (now : Z) (s : State) : option State :=
  if running s then Some s else
  let s := setupCycleFromInputs s in
  let s := s |> set_running true |> set_paused false |> set_cycleIndex 0 in
  first ← at_index (cycle s) 0;
  let s := s |> set_timeLeft (Phase.duration first) in
  let s := if negb (sessionActive s)
           then s |> set_sessionActive true
                  |> set_sessionStartTime (Some now)
                  |> set_sessionCycles 0
           else s in
  startPhase s.

Definition addHistoryPhase (now : Z) (phase : string) (duration : Z)
    (s : State) : State :=
  let entry :=
    Entry.mk now phase duration
             (phase +:+ " (" +:+ JS.toString duration +:+ "s)") in
  s |> set_historyData (historyData s ++ [entry]).

Definition addProgressForToday (now : Z) (count : Z) (s : State) : State :=
  let key := dateKeyFromISO now in
  s |> set_progressData
         (<[key := JS.orElse (progressData s !! key) 0 + count]> (progressData s)).

(** The body of [if (timeLeft <= 0) { ... }] in the interval callback. *)
Definition completePhase (now : Z) (current : Phase.t) (s : State)
    : option State :=
  let s := s |> set_timerId None in
  let s := addHistoryPhase now (Phase.phase current) (Phase.duration current) s in
  idx ← jsRem (cycleIndex s + 1) (Z.of_nat (length (cycle s)));
  let s := s |> set_cycleIndex idx in
  let s := if String.eqb (JS.toLowerCase (Phase.phase current)) "exhale"
           then addProgressForToday now 1
                  (s |> set_sessionCycles (sessionCycles s + 1))
           else s in
  startPhase s.

(** One firing of the interval callback; nothing fires when no interval is
    armed. *)
Definition tick (now : Z) (s : State) : option State :=
  match timerId s with
  | None => Some s
  | Some current =>
      if paused s then Some s else
      let s := s |> set_timeLeft (timeLeft s - 1) in
      let s := s |> set_timeDisplay (JS.padStart2 (JS.toString (timeLeft s))) in
      if timeLeft s <=? 0 then completePhase now current s else Some s
  end.

Fixpoint ticks (nows : list Z) (s : State) : option State :=
  match nows with
  | [] => Some s
  | now :: rest => s' ← tick now s; ticks rest s'
  end.

Definition pauseOrResume (s : State) : State :=
  if negb (running s) then s else
  let s := s |> set_paused (negb (paused s)) in
  s |> set_pauseBtn (if paused s then "Resume" else "Pause").

Definition finalizeSessionIfActive (now : Z) (s : State) : State :=
  if negb (sessionActive s) then s else
  let s := s |> set_sessionActive false in
  let end_ := now in
  let start := default end_ (sessionStartTime s) in
  let durationSec := JS.roundDiv1000 (end_ - start) in
  let summary :=
    Summary.mk start end_ (sessionCycles s) durationSec
               (JS.orElse (JS.parseInt (inhaleInput s) 0) 4)
               (JS.orElse (JS.parseInt (holdInput s) 0) 7)
               (JS.orElse (JS.parseInt (exhaleInput s) 0) 8) in
  s |> set_sessionSummaries (sessionSummaries s ++ [summary]).

Definition resetCycle (now : Z) (s : State) : State :=
  finalizeSessionIfActive now s
    |> set_timerId None
    |> set_running false
    |> set_paused false
    |> set_sessionActive false
    |> set_sessionStartTime None
    |> set_sessionCycles 0
    |> set_cycleIndex 0
    |> set_timeLeft 0
    |> set_phaseDisplay "Press Start"
    |> set_timeDisplay "00"
    |> set_pauseBtn "Pause".

(** [confirmed] is the answer to the [confirm] dialog. *)
Definition clearAllHistory (confirmed : bool) (s : State) : State :=
  if negb confirmed then s else
  s |> set_historyData [] |> set_sessionSummaries [] |> set_progressData ∅.

(** The user typing into the three duration fields. *)
Definition editInputs (inh hol exh : string) (s : State) : State :=
  s |> set_inhaleInput inh |> set_holdInput hol |> set_exhaleInput exh.

(** ** Reports *)

(** The date entries are compared with, for a range of [days] days read at
    [now]: [cutoff.setDate(cutoff.getDate() - (days - 1))], then
    [new Date(cutoff.toDateString())].  [None] is an Invalid Date: the
    cutoff, or the midnight of its day, is a time value no [Date] holds. *)
Definition rangeCutoff (now days : Z) : option Z :=
  let cutoff := minusDays now (days - 1) in
  if validTime cutoff && validTime (startOfDay cutoff)
  then Some (startOfDay cutoff) else None.

(** [filterHistoryByRange(range)] called at instant [now]; an unparsable
    range, or one that takes the cutoff out of the range of [Date], makes
    every comparison with the invalid cutoff false. *)
Definition filterHistoryByRange (now : Z) (range : string) (s : State)
    : list Entry.t :=
  if String.eqb range "all" then historyData s else
  match JS.parseInt range 10 with
  | None => []
  | Some days =>
      match rangeCutoff now days with
      | None => []
      | Some midnight =>
          List.filter (fun h => midnight <=? Entry.ts h) (historyData s)
      end
  end.

(** [progressData[l] || 0], the count the chart shows for a day. *)
Definition progressCount (s : State) (day : Z) : Z :=
  JS.orElse (progressData s !! day) 0.

(** Number of ledger entries of phase Exhale stamped on a given day. *)
Definition isExhaleOn (day : Z) (h : Entry.t) : bool :=
  String.eqb (Entry.phase h) "Exhale" && (dateKeyFromISO (Entry.ts h) =? day).

Definition exhalesOn (day : Z) (hist : list Entry.t) : Z :=
  Z.of_nat (length (List.filter (isExhaleOn day) hist)).

(** ** The machine: user actions and timer firings *)

Inductive Action :=
| Start (now : Z)
| Tick (now : Z)
| PauseToggle
| Reset (now : Z)
| Clear (confirmed : bool)
| EditInputs (inh hol exh : string).

Definition step (a : Action) (s : State) : option State :=
  match a with
  | Start now => startCycle now s
  | Tick now => tick now s
  | PauseToggle => Some (pauseOrResume s)
  | Reset now => Some (resetCycle now s)
  | Clear confirmed => Some (clearAllHistory confirmed s)
  | EditInputs inh hol exh => Some (editInputs inh hol exh s)
  end.

Fixpoint run (acts : list Action) (s : State) : option State :=
  match acts with
  | [] => Some s
  | a :: rest => s' ← step a s; run rest s'
  end.

(** States the script can be in, from boot on empty storage. *)
Inductive reachable : State -> Prop :=
| reach_init inh hol exh lbl : reachable (init inh hol exh lbl)
| reach_step a s s' : reachable s -> step a s = Some s' -> reachable s'.

End Timer.

(** ** Reference definitions for the statements *)

(** The duration a phase is configured with, given what [parseInt] reads
    in its field, in the words of the rule the script follows: the default
    when it reads no number or reads zero; one when it reads a negative
    number; the number read when it is positive. *)
Inductive configured (dflt : Z) : option Z -> Z -> Prop :=
| conf_not_a_number : configured dflt None dflt
| conf_zero : configured dflt (Some 0) dflt
| conf_negative n : n < 0 -> configured dflt (Some n) 1
| conf_positive n : 0 < n -> configured dflt (Some n) n.

(** What the page shows and the flags it keeps between sessions. *)
Definition transient (s : State)
    : string * string * bool * bool * bool * Z * Z * Z
      * option Z * option Phase.t :=
  (phaseDisplay s, timeDisplay s, running s, paused s, sessionActive s,
   cycleIndex s, timeLeft s, sessionCycles s, sessionStartTime s, timerId s).

(** The zone of the examples: UTC+05:30. *)
Definition IST : Z := 19800000.

(** A page left at its usual values. *)
Definition page478 : State := init "4" "7" "8" "Pause".

(** ** Configuration *)

Lemma configured_of_input (v : string) (dflt : Z) :
  0 < dflt ->
  configured dflt (JS.parseInt v 0)
             (Z.max 1 (JS.orElse (JS.parseInt v 0) dflt)).
Proof.
  intros Hd. destruct (JS.parseInt v 0) as [n|].
  - destruct (Z.lt_trichotomy n 0) as [Hn | [-> | Hn]].
    + replace (Z.max 1 (JS.orElse (Some n) dflt)) with 1.
      * now apply conf_negative.
      * destruct n; simpl; lia.
    + simpl. rewrite Z.max_r by lia. apply conf_zero.
    + replace (Z.max 1 (JS.orElse (Some n) dflt)) with n.
      * now apply conf_positive.
      * destruct n; simpl; lia.
  - simpl. rewrite Z.max_r by lia. apply conf_not_a_number.
Qed.

Lemma configured_pos (dflt : Z) (x : option Z) (d : Z) :
  0 < dflt -> configured dflt x d -> 0 < d.
Proof. intros Hd H. destruct H; lia. Qed.

(** C4 (as the script has it).  Building the cycle never fails and gives the
    three phases Inhale, Hold, Exhale, each with a positive duration,
    decided by the number [parseInt] reads at the start of the field: the
    default (4, 7, 8) when it reads none or reads zero; 1 when it reads a
    negative number; the number read when it is positive.  [parseInt]
    skips leading white space, reads a sign and the digits that follow,
    and ignores the rest; what it gives is a double. *)
Theorem setupCycle_durations (s : State) :
  (exists a b c,
     cycle (setupCycleFromInputs s)
       = [Phase.mk "Inhale" a; Phase.mk "Hold" b; Phase.mk "Exhale" c]
     /\ (0 < a /\ 0 < b /\ 0 < c)
     /\ configured 4 (JS.parseInt (inhaleInput s) 0) a
     /\ configured 7 (JS.parseInt (holdInput s) 0) b
     /\ configured 8 (JS.parseInt (exhaleInput s) 0) c)
  /\ JS.parseInt "" 0 = None /\ JS.parseInt "abc" 0 = None
  /\ JS.parseInt "0.5" 0 = Some 0 /\ JS.parseInt "-0.5" 0 = Some 0
  /\ JS.parseInt "4.9" 0 = Some 4 /\ JS.parseInt "1e3" 0 = Some 1
  /\ JS.parseInt " -3" 0 = Some (-3)
  /\ JS.parseInt "9007199254740993" 0 = Some 9007199254740992.
Proof.
  split; [|vm_compute; repeat split].
  do 3 eexists. split; [destruct s; reflexivity|].
  pose proof (configured_of_input (inhaleInput s) 4 ltac:(lia)) as Ha.
  pose proof (configured_of_input (holdInput s) 7 ltac:(lia)) as Hb.
  pose proof (configured_of_input (exhaleInput s) 8 ltac:(lia)) as Hc.
  repeat split; try assumption; try reflexivity.
  - eapply configured_pos; [|exact Ha]; lia.
  - eapply configured_pos; [|exact Hb]; lia.
  - eapply configured_pos; [|exact Hc]; lia.
Qed.

(** C4 as stated fails: an input that is not a number, and an input of
    zero, are given the default and not the minimum of 1. *)
Lemma setupCycle_clamp_counterexample :
  let s := setupCycleFromInputs (init "abc" "0" "-2" "Pause") in
  JS.parseInt "abc" 0 = None /\ JS.parseInt "0" 0 = Some 0
  /\ map Phase.duration (cycle s) = [4; 7; 1]
  /\ map Phase.duration (cycle s) <> [1; 1; 1].
Proof. vm_compute. repeat split; discriminate. Qed.

(** ** Session summaries *)

(** A session started on the usual page. *)
Definition started478 : State := default page478 (startCycle 0 page478).

(** C5 at its failing inputs.  The summary re-reads the input fields when
    the session ends, without the clamp of [setupCycleFromInputs]: a
    session configured from "-3" ran with an inhale of 1 second and is
    recorded with -3; a session started with 4/7/8 whose fields were edited
    while it ran is recorded with the edited values. *)
Theorem summary_durations_diverge :
  (let s1 := startCycle 0 (init "-3" "7" "8" "Pause") in
   (fun s => map Phase.duration (cycle s)) <$> s1 = Some [1; 7; 8]
   /\ (fun s => sessionSummaries (resetCycle 5000 s)) <$> s1
      = Some [Summary.mk 0 5000 0 5 (-3) 7 8])
  /\
  (let s1 := editInputs "5" "5" "5" <$> startCycle 0 page478 in
   (fun s => map Phase.duration (cycle s)) <$> s1 = Some [4; 7; 8]
   /\ (fun s => sessionSummaries (resetCycle 5000 s)) <$> s1
      = Some [Summary.mk 0 5000 0 5 5 5 5]).
Proof. vm_compute. repeat split. Qed.

(** The summary agrees with the cycle when the fields are as they were at
    the start and none of them holds a negative number. *)
Lemma summary_durations_unedited (now : Z) (s : State) :
  JS.orElse (JS.parseInt (inhaleInput s) 0) 4 > 0 ->
  JS.orElse (JS.parseInt (holdInput s) 0) 7 > 0 ->
  JS.orElse (JS.parseInt (exhaleInput s) 0) 8 > 0 ->
  sessionActive s = true ->
  cycle s = cycle (setupCycleFromInputs s) ->
  exists sm,
    sessionSummaries (finalizeSessionIfActive now s)
      = sessionSummaries s ++ [sm]
    /\ map Phase.duration (cycle s)
       = [Summary.inhale sm; Summary.hold sm; Summary.exhale sm].
Proof.
  intros Ha Hb Hc Hact Hcy. unfold finalizeSessionIfActive.
  rewrite Hact. destruct s; simpl in *. eexists. split; [reflexivity|].
  rewrite Hcy. simpl. f_equal; [lia|]. f_equal; [lia|]. f_equal. lia.
Qed.

(** ** Start, pause and the paused clock *)

(** C7.  While the engine runs, start changes nothing: the state after it
    is the state before it, with the same completed cycles, phase index and
    remaining seconds. *)
Theorem start_running_noop (now : Z) (s : State) :
  running s = true -> startCycle now s = Some s.
Proof. intros Hr. unfold startCycle. now rewrite Hr. Qed.

Lemma start_running_noop_witness :
  startCycle 4000 started478 = Some started478.
Proof. apply start_running_noop. reflexivity. Defined.

Section Paused.
Variable tz : Z.

Lemma tick_paused (now : Z) (s : State) :
  paused s = true -> tick tz now s = Some s.
Proof.
  intros Hp. unfold tick. destruct (timerId s); [|reflexivity].
  now rewrite Hp.
Qed.

(** C8.  While the paused flag is set, any number of ticks leaves the whole
    state as it is, so resuming after N ticks gives the state, and the
    remaining seconds, that resuming at once gives. *)
Theorem ticks_paused_frame (nows : list Z) (s : State) :
  paused s = true ->
  ticks tz nows s = Some s
  /\ pauseOrResume <$> ticks tz nows s = pauseOrResume <$> ticks tz [] s
  /\ (fun s' => timeLeft (pauseOrResume s')) <$> ticks tz nows s
     = Some (timeLeft s).
Proof.
  intros Hp.
  assert (Hf : ticks tz nows s = Some s).
  { induction nows as [|now rest IH]; [reflexivity|].
    simpl. rewrite (tick_paused now s Hp). exact IH. }
  rewrite Hf. repeat split. simpl. unfold pauseOrResume.
  destruct (running s); destruct s; reflexivity.
Qed.

End Paused.

Lemma ticks_paused_frame_witness :
  ticks IST [1000; 2000; 3000] (pauseOrResume started478)
    = Some (pauseOrResume started478).
Proof.
  apply (ticks_paused_frame IST [1000; 2000; 3000] (pauseOrResume started478)).
  reflexivity.
Defined.

(** C10.  Pause pressed while the engine is not running changes no
    variable, the paused flag included, and the session started next is not
    paused. *)
Theorem pause_idle_noop (s : State) :
  running s = false ->
  pauseOrResume s = s
  /\ forall now, paused <$> startCycle now (pauseOrResume s) = Some false.
Proof.
  intros Hr. unfold pauseOrResume. rewrite Hr. simpl. split; [reflexivity|].
  intros now. unfold startCycle. rewrite Hr.
  destruct s as [? ? ? ? ? ? ? ? act ? ? ? ? ? ? ? ? ?]; destruct act;
    reflexivity.
Qed.

Lemma pause_idle_noop_witness :
  pauseOrResume page478 = page478.
Proof. apply (pause_idle_noop page478). reflexivity. Defined.

(** ** The range filter *)

(** The time values a [Date] holds. *)
Definition inDateRange (t : Z) : Prop := - maxTime <= t <= maxTime.

Section Range.
Variable tz : Z.

Lemma localDay_minusDays (t k : Z) :
  localDay tz (minusDays t k) = localDay tz t - k.
Proof.
  unfold localDay, minusDays, msPerDay.
  replace (t - k * 86400000 + tz) with (t + tz + (- k) * 86400000) by lia.
  rewrite Z.div_add by lia. lia.
Qed.

(** An instant is at or after the local midnight of a day exactly when its
    own local day is that day or a later one. *)
Lemma startOfDay_le (c t : Z) :
  (startOfDay tz c <=? t) = (localDay tz c <=? localDay tz t).
Proof.
  unfold startOfDay, localDay, msPerDay.
  destruct (Z.leb_spec ((c + tz) / 86400000) ((t + tz) / 86400000)) as [H|H].
  - apply Z.leb_le.
    pose proof (Z.mul_div_le (t + tz) 86400000 ltac:(lia)).
    nia.
  - apply Z.leb_gt.
    pose proof (Z.mod_pos_bound (t + tz) 86400000 ltac:(lia)).
    pose proof (Z.div_mod (t + tz) 86400000 ltac:(lia)).
    nia.
Qed.

Lemma startOfDay_upper (t : Z) : startOfDay tz t <= t.
Proof.
  unfold startOfDay, localDay, msPerDay.
  pose proof (Z.mul_div_le (t + tz) 86400000 ltac:(lia)). lia.
Qed.

Lemma rangeCutoff_Some (now N : Z) :
  inDateRange (startOfDay tz (minusDays now (N - 1))) ->
  inDateRange (minusDays now (N - 1)) ->
  rangeCutoff tz now N = Some (startOfDay tz (minusDays now (N - 1))).
Proof.
  unfold rangeCutoff, validTime, inDateRange. intros H1 H2.
  destruct (Z.leb_spec (- maxTime) (minusDays now (N - 1))); [|lia].
  destruct (Z.leb_spec (minusDays now (N - 1)) maxTime); [|lia].
  destruct (Z.leb_spec (- maxTime) (startOfDay tz (minusDays now (N - 1))));
    [|lia].
  destruct (Z.leb_spec (startOfDay tz (minusDays now (N - 1))) maxTime);
    [|lia].
  reflexivity.
Qed.

Lemma rangeCutoff_None (now N : Z) :
  ~ (inDateRange (startOfDay tz (minusDays now (N - 1)))
     /\ inDateRange (minusDays now (N - 1))) ->
  rangeCutoff tz now N = None.
Proof.
  unfold rangeCutoff, validTime, inDateRange. intros H.
  destruct (Z.leb_spec (- maxTime) (minusDays now (N - 1))); [|reflexivity].
  destruct (Z.leb_spec (minusDays now (N - 1)) maxTime); [|reflexivity].
  destruct (Z.leb_spec (- maxTime) (startOfDay tz (minusDays now (N - 1))));
    [|reflexivity].
  destruct (Z.leb_spec (startOfDay tz (minusDays now (N - 1))) maxTime);
    [|reflexivity].
  exfalso. apply H. lia.
Qed.

Lemma filter_from_midnight (c : Z) (l : list Entry.t) :
  List.filter (fun h => startOfDay tz c <=? Entry.ts h) l
  = List.filter (fun h => localDay tz c <=? localDay tz (Entry.ts h)) l.
Proof.
  induction l as [|h rest IH]; [reflexivity|].
  simpl. now rewrite startOfDay_le, IH.
Qed.

(** C1 (as the script has it).  When today minus (N - 1) days, and the
    midnight that day starts at, are dates a [Date] can hold, a range of N
    days keeps, in ledger order, exactly the entries stamped on that local
    day or later: the last N days, today included.  For any other N the
    cutoff is an Invalid Date and nothing is kept. *)
Theorem filter_range_last_days (now : Z) (range : string) (N : Z) (s : State) :
  JS.parseInt range 10 = Some N ->
  (inDateRange (startOfDay tz (minusDays now (N - 1))) ->
   inDateRange (minusDays now (N - 1)) ->
   filterHistoryByRange tz now range s
   = List.filter
       (fun h => localDay tz now - (N - 1) <=? localDay tz (Entry.ts h))
       (historyData s))
  /\ (~ (inDateRange (startOfDay tz (minusDays now (N - 1)))
         /\ inDateRange (minusDays now (N - 1))) ->
      filterHistoryByRange tz now range s = []).
Proof.
  intros Hp. unfold filterHistoryByRange.
  destruct (String.eqb_spec range "all") as [->|_].
  - vm_compute in Hp. discriminate.
  - rewrite Hp. split.
    + intros H1 H2. rewrite (rangeCutoff_Some now N H1 H2).
      rewrite filter_from_midnight, localDay_minusDays. reflexivity.
    + intros H. now rewrite (rangeCutoff_None now N H).
Qed.

End Range.

(** Noon of a local day in the zone of the examples. *)
Definition noonIST (day : Z) : Z := day * msPerDay + 43200000 - IST.

Definition entryAt (day : Z) : Entry.t :=
  Entry.mk (noonIST day) "Exhale" 8 "Exhale (8s)".

(** A ledger with an entry 7 days old, one 6 days old and one of today,
    today being day 20000. *)
Definition ledger_week : State :=
  page478 |> set_historyData [entryAt 19993; entryAt 19994; entryAt 20000].

Lemma filter_range_last_days_witness :
  filterHistoryByRange IST (noonIST 20000) "7" ledger_week
    = [entryAt 19994; entryAt 20000]
  /\ filterHistoryByRange IST (noonIST 20000) "6" ledger_week
    = [entryAt 20000]
  /\ filterHistoryByRange IST (noonIST 20000) "200000000" ledger_week = [].
Proof.
  split; [|split].
  - rewrite (proj1 (filter_range_last_days IST (noonIST 20000) "7" 7
                      ledger_week eq_refl)).
    + reflexivity.
    + vm_compute. split; discriminate.
    + vm_compute. split; discriminate.
  - rewrite (proj1 (filter_range_last_days IST (noonIST 20000) "6" 6
                      ledger_week eq_refl)).
    + reflexivity.
    + vm_compute. split; discriminate.
    + vm_compute. split; discriminate.
  - apply (proj2 (filter_range_last_days IST (noonIST 20000) "200000000"
                    200000000 ledger_week eq_refl)).
    vm_compute. intros [[H _] _]. now apply H.
Defined.

(** C1 as stated fails: with an entry of today and an entry stamped exactly
    7 calendar days before today, range "7" does not return both: the older
    one is left out. *)
Lemma filter_range_counterexample :
  let today := entryAt 20000 in
  let weekOld := entryAt 19993 in
  let s := page478 |> set_historyData [weekOld; today] in
  localDay IST (Entry.ts today) = localDay IST (noonIST 20000)
  /\ localDay IST (Entry.ts weekOld) = localDay IST (noonIST 20000) - 7
  /\ filterHistoryByRange IST (noonIST 20000) "7" s = [today]
  /\ filterHistoryByRange IST (noonIST 20000) "7" s <> [weekOld; today].
Proof. vm_compute. repeat split; discriminate. Qed.

(** ** Invariants of the machine *)

(** The only shape [setupCycleFromInputs] gives to [cycle]. *)
Definition wfCycle (c : list Phase.t) : Prop :=
  exists a b e,
    c = [Phase.mk "Inhale" a; Phase.mk "Hold" b; Phase.mk "Exhale" e].

(** Names the eighteen variables of a state and computes through the
    assignments made to them. *)
Ltac open_state s :=
  destruct s as [cy ci tl tid run pau sst sc act hist sums prog
                 inh hol exh phd tmd pbt];
  simpl in *.

Section Invariant.
Variable tz : Z.

Record Inv (s : State) : Prop := mkInv {
  inv_flags : running s = sessionActive s;
  inv_index : 0 <= cycleIndex s;
  inv_timer : forall cur, timerId s = Some cur ->
                wfCycle (cycle s) /\ In cur (cycle s);
  inv_ledger : forall d, progressCount s d = exhalesOn tz d (historyData s)
}.

Lemma Inv_init (inh hol exh lbl : string) : Inv (init inh hol exh lbl).
Proof. constructor; simpl; easy. Qed.

Lemma exhalesOn_snoc (d : Z) (hist : list Entry.t) (h : Entry.t) :
  exhalesOn tz d (hist ++ [h])
  = exhalesOn tz d hist + (if isExhaleOn tz d h then 1 else 0).
Proof.
  unfold exhalesOn. rewrite List.filter_app, length_app. simpl.
  destruct (isExhaleOn tz d h); simpl; lia.
Qed.

Lemma orElse_zero (x : option Z) : JS.orElse x 0 = default 0 x.
Proof. destruct x as [[| |]|]; reflexivity. Qed.

Lemma progressCount_add (now d : Z) (s : State) :
  progressCount (addProgressForToday tz now 1 s) d
  = progressCount s d + (if dateKeyFromISO tz now =? d then 1 else 0).
Proof.
  unfold progressCount, addProgressForToday. destruct s; simpl.
  rewrite !orElse_zero.
  destruct (Z.eqb_spec (dateKeyFromISO tz now) d) as [->|Hne].
  - rewrite lookup_insert_eq. reflexivity.
  - rewrite lookup_insert_ne by assumption. lia.
Qed.

Lemma at_index_In (c : list Phase.t) (i : Z) (p : Phase.t) :
  at_index c i = Some p -> In p c.
Proof.
  unfold at_index. destruct (i <? 0); [discriminate|].
  intros H. apply list_elem_of_In. eapply list_elem_of_lookup_2. exact H.
Qed.

Lemma wfCycle_at_index (c : list Phase.t) (i : Z) :
  wfCycle c -> 0 <= i < 3 -> exists p, at_index c i = Some p.
Proof.
  intros (a & b & e & ->) Hi. unfold at_index.
  destruct (Z.ltb_spec i 0); [lia|].
  assert (i = 0 \/ i = 1 \/ i = 2) as [-> | [-> | ->]] by lia;
    simpl; eauto.
Qed.

Lemma completePhase_Inv (now : Z) (cur : Phase.t) (s s' : State) :
  Inv s -> timerId s = Some cur ->
  completePhase tz now cur s = Some s' -> Inv s'.
Proof.
  intros [Hf Hi Ht Hl] Hcur Hstep.
  destruct (Ht cur Hcur) as [(a & b & e & Hcy) Hin].
  assert (Hrem : 0 <= Z.rem (cycleIndex s + 1) 3)
    by (apply Z.rem_nonneg; lia).
  unfold progressCount in Hl. clear Ht.
  open_state s. subst cy tid.
  unfold completePhase, startPhase, jsRem, addHistoryPhase,
    addProgressForToday in Hstep.
  destruct Hin as [<- | [<- | [<- | []]]]; simpl in Hstep;
    change (Z.of_nat 3) with 3 in Hstep;
    destruct (at_index _ _) as [nxt|] eqn:Hnxt; try discriminate;
    simpl in Hstep; injection Hstep as <-;
    apply at_index_In in Hnxt;
    (constructor; simpl;
     [ exact Hf | exact Hrem
     | intros ? [= <-]; split; [exists a, b, e; reflexivity | exact Hnxt]
     | intros d; unfold progressCount; simpl; rewrite exhalesOn_snoc ]).
  - rewrite Hl. unfold isExhaleOn. simpl. now rewrite Z.add_0_r.
  - rewrite Hl. unfold isExhaleOn. simpl. now rewrite Z.add_0_r.
  - rewrite <- !Hl, !orElse_zero. unfold isExhaleOn. simpl.
    destruct (Z.eqb_spec (dateKeyFromISO tz now) d) as [->|Hne].
    + now rewrite lookup_insert_eq.
    + rewrite lookup_insert_ne by assumption. now rewrite Z.add_0_r.
Qed.

Lemma Inv_countdown (x : Z) (y : string) (s : State) :
  Inv s -> Inv (set_timeDisplay y (set_timeLeft x s)).
Proof.
  intros [Hf Hi Ht Hl]. unfold progressCount in Hl. open_state s.
  constructor; unfold progressCount; simpl; assumption.
Qed.

Lemma tick_Inv (now : Z) (s s' : State) :
  Inv s -> tick tz now s = Some s' -> Inv s'.
Proof.
  intros HI Hstep. unfold tick in Hstep.
  destruct (timerId s) as [cur|] eqn:Hcur; [|now injection Hstep as <-].
  destruct (paused s); [now injection Hstep as <-|].
  cbv zeta in Hstep.
  match type of Hstep with
  | (if _ then completePhase _ _ _ ?s1 else _) = _ =>
      assert (HI1 : Inv s1) by (now apply Inv_countdown);
      assert (Hcur1 : timerId s1 = Some cur)
        by (clear - Hcur; open_state s; exact Hcur);
      destruct (_ <=? _);
        [ exact (completePhase_Inv now cur s1 s' HI1 Hcur1 Hstep)
        | now injection Hstep as <- ]
  end.
Qed.

Lemma startCycle_Inv (now : Z) (s s' : State) :
  Inv s -> startCycle now s = Some s' -> Inv s'.
Proof.
  intros [Hf Hi Ht Hl] Hstep. unfold startCycle in Hstep.
  destruct (running s) eqn:Hr.
  - injection Hstep as <-. constructor; try assumption. congruence.
  - unfold progressCount in Hl. unfold startPhase, setupCycleFromInputs in Hstep.
    open_state s. subst run act. cbn in Hstep.
    injection Hstep as <-. constructor; simpl.
    + reflexivity.
    + lia.
    + intros ? [= <-]. split; [|now left]. do 3 eexists. reflexivity.
    + exact Hl.
Qed.

Lemma finalize_ledger (now : Z) (s : State) :
  historyData (finalizeSessionIfActive now s) = historyData s
  /\ progressData (finalizeSessionIfActive now s) = progressData s.
Proof.
  unfold finalizeSessionIfActive.
  destruct (sessionActive s); open_state s; now split.
Qed.

Lemma resetCycle_Inv (now : Z) (s : State) : Inv s -> Inv (resetCycle now s).
Proof.
  intros [Hf Hi Ht Hl]. unfold progressCount in Hl.
  destruct (finalize_ledger now s) as [Hh Hp].
  unfold resetCycle.
  destruct (finalizeSessionIfActive now s) as [? ? ? ? ? ? ? ? ? h1 ? p1 ? ? ? ? ? ?].
  simpl in *. subst h1 p1. constructor; simpl; try easy.
Qed.

Lemma step_Inv (a : Action) (s s' : State) :
  Inv s -> step tz a s = Some s' -> Inv s'.
Proof.
  intros HI Hstep. destruct a as [now|now| |now|confirmed|inh0 hol0 exh0];
    simpl in Hstep.
  - eapply startCycle_Inv; eassumption.
  - eapply tick_Inv; eassumption.
  - injection Hstep as <-. destruct HI as [Hf Hi Ht Hl].
    unfold pauseOrResume. destruct (running s) eqn:Hr; simpl.
    + unfold progressCount in Hl. open_state s.
      constructor; unfold progressCount; simpl;
        first [assumption | congruence].
    + constructor; first [assumption | congruence].
  - injection Hstep as <-. now apply resetCycle_Inv.
  - injection Hstep as <-. destruct HI as [Hf Hi Ht Hl].
    unfold clearAllHistory. destruct confirmed; simpl.
    + open_state s. constructor; simpl; try assumption. reflexivity.
    + now constructor.
  - injection Hstep as <-. destruct HI as [Hf Hi Ht Hl].
    unfold progressCount in Hl. open_state s.
    constructor; unfold progressCount; simpl; assumption.
Qed.

(** No action throws in a state that satisfies the invariant. *)
Lemma step_total (a : Action) (s : State) :
  Inv s -> exists s', step tz a s = Some s'.
Proof.
  intros [Hf Hi Ht Hl]. destruct a as [now|now| |now|confirmed|inh0 hol0 exh0];
    simpl; eauto.
  - unfold startCycle. destruct (running s); [eauto|].
    unfold startPhase, setupCycleFromInputs. clear.
    open_state s. destruct act; cbn; eauto.
  - unfold tick. destruct (timerId s) as [cur|] eqn:Hcur; [|eauto].
    destruct (paused s); [eauto|]. cbv zeta.
    destruct (_ <=? _); [|eauto].
    destruct (Ht cur eq_refl) as [Hwf _].
    pose proof Hwf as (x & y & z & Hcy).
    assert (Hb : 0 <= Z.rem (cycleIndex s + 1) 3 < 3)
      by (apply Z.rem_bound_pos; lia).
    destruct (wfCycle_at_index _ _ Hwf Hb) as [p Hp].
    clear Ht Hl Hcur Hf.
    unfold completePhase, startPhase, jsRem, addHistoryPhase,
      addProgressForToday.
    open_state s. subst cy. cbn. change (Z.of_nat 3) with 3.
    destruct (String.eqb _ _); cbn; rewrite Hp; cbn; eauto.
Qed.

Lemma reachable_Inv (s : State) : reachable tz s -> Inv s.
Proof.
  induction 1 as [inh hol exh lbl | a s s' _ IH Hstep].
  - apply Inv_init.
  - eapply step_Inv; eassumption.
Qed.

Lemma run_Inv (acts : list Action) (s : State) :
  Inv s -> exists s', run tz acts s = Some s' /\ Inv s'.
Proof.
  revert s. induction acts as [|a rest IH]; intros s HI.
  - exists s. now split.
  - destruct (step_total a s HI) as [s1 Hs1]. simpl. rewrite Hs1. simpl.
    apply IH. eapply step_Inv; eassumption.
Qed.

End Invariant.

(** ** The countdown *)

Section FullCycle.
Variable tz : Z.

(** Completing a phase overwrites the countdown: what it was does not
    matter. *)
Lemma completePhase_countdown (x : Z) (y : string) (now : Z) (cur : Phase.t)
    (s : State) :
  completePhase tz now cur (set_timeDisplay y (set_timeLeft x s))
  = completePhase tz now cur s.
Proof.
  unfold completePhase, startPhase, jsRem, addHistoryPhase,
    addProgressForToday.
  open_state s. destruct (_ =? 0); [reflexivity|]. simpl.
  destruct (String.eqb _ _); simpl; destruct (at_index _ _); reflexivity.
Qed.

Lemma timeLeft_countdown (x : Z) (y : string) (s : State) :
  timeLeft (set_timeDisplay y (set_timeLeft x s)) = x.
Proof. open_state s. reflexivity. Qed.

(** A firing of the callback while the timer is armed and not paused. *)
Lemma tick_running (now : Z) (cur : Phase.t) (s : State) :
  timerId s = Some cur -> paused s = false ->
  tick tz now s
  = if timeLeft s - 1 <=? 0 then completePhase tz now cur s
    else Some (set_timeDisplay (JS.padStart2 (JS.toString (timeLeft s - 1)))
                 (set_timeLeft (timeLeft s - 1) s)).
Proof.
  intros Hcur Hp. unfold tick. rewrite Hcur, Hp. cbv zeta.
  rewrite completePhase_countdown, !timeLeft_countdown.
  replace (timeLeft (set_timeLeft (timeLeft s - 1) s)) with (timeLeft s - 1)
    by (open_state s; reflexivity).
  reflexivity.
Qed.

Lemma orElse_max_pos (a d : Z) : 0 < a -> Z.max 1 (JS.orElse (Some a) d) = a.
Proof. intros Ha. destruct a; simpl; lia. Qed.

End FullCycle.

(** Ticks one second apart, the first at [from] seconds. *)
Definition secondsFrom (from : Z) (n : nat) : list Z :=
  map (fun k => 1000 * (from + Z.of_nat k)) (seq 0 n).

(** * Further properties of the script *)

(** ** The engine while it runs *)

(** What holds of the timer variables in every state the machine reaches:
    the interval is armed exactly while the engine runs; a paused engine is
    a running one and the button then reads "Resume"; an active session has
    its start time; the countdown shown is the countdown held; an idle
    engine shows the start prompt with every counter at zero; an armed one
    holds the three phases with durations of at least one second, shows the
    phase the interval was armed for, which is [cycle[cycleIndex]], and has
    between one second and the whole phase left. *)
Record Engine (s : State) : Prop := mkEngine {
  eng_armed : timerId s = None <-> running s = false;
  eng_paused : paused s = true -> running s = true /\ pauseBtn s = "Resume";
  eng_started : sessionActive s = true ->
                exists t0, sessionStartTime s = Some t0;
  eng_display : timeDisplay s = JS.padStart2 (JS.toString (timeLeft s));
  eng_count : 0 <= sessionCycles s;
  eng_idle : timerId s = None ->
             phaseDisplay s = "Press Start" /\ timeLeft s = 0
             /\ cycleIndex s = 0 /\ sessionCycles s = 0;
  eng_phase : forall cur, timerId s = Some cur ->
      (exists a b c,
          cycle s = [Phase.mk "Inhale" a; Phase.mk "Hold" b;
                     Phase.mk "Exhale" c]
          /\ 1 <= a /\ 1 <= b /\ 1 <= c)
      /\ 0 <= cycleIndex s < 3
      /\ at_index (cycle s) (cycleIndex s) = Some cur
      /\ phaseDisplay s = Phase.phase cur
      /\ 1 <= timeLeft s <= Phase.duration cur
}.

Section EngineInvariant.
Variable tz : Z.

Lemma Engine_init (inh hol exh lbl : string) : Engine (init inh hol exh lbl).
Proof.
  constructor; simpl; try easy.
Qed.

Lemma startCycle_Engine (now : Z) (s s' : State) :
  Engine s -> startCycle now s = Some s' -> Engine s'.
Proof.
  intros HE Hstep. unfold startCycle in Hstep.
  destruct (running s) eqn:Hr; [now injection Hstep as <-|].
  destruct HE as [Harm Hpa Hst Hdi Hcn Hid Hph].
  apply proj2 in Harm. specialize (Harm Hr). specialize (Hid Harm).
  unfold startPhase, setupCycleFromInputs in Hstep.
  open_state s. subst run tid.
  pose proof (Z.le_max_l 1 (JS.orElse (JS.parseInt inh 0) 4)) as Pa.
  pose proof (Z.le_max_l 1 (JS.orElse (JS.parseInt hol 0) 7)) as Pb.
  pose proof (Z.le_max_l 1 (JS.orElse (JS.parseInt exh 0) 8)) as Pc.
  set (a := Z.max 1 (JS.orElse (JS.parseInt inh 0) 4)) in *.
  set (b := Z.max 1 (JS.orElse (JS.parseInt hol 0) 7)) in *.
  set (c := Z.max 1 (JS.orElse (JS.parseInt exh 0) 8)) in *.
  clearbody a b c.
  destruct act; cbn in Hstep; injection Hstep as <-; constructor; simpl;
    try easy; try lia; eauto.
  all: intros ? [= <-]; simpl; repeat split; try lia;
    exists a, b, c; repeat split; assumption.
Qed.

Lemma completePhase_Engine (now : Z) (cur : Phase.t) (s s' : State) :
  Engine s -> timerId s = Some cur -> paused s = false ->
  completePhase tz now cur s = Some s' -> Engine s'.
Proof.
  intros [Harm Hpa Hst Hdi Hcn Hid Hph] Hcur Hp Hstep.
  destruct (Hph cur Hcur) as ((a & b & c & Hcy & Pa & Pb & Pc) & Hci & Hat & _).
  assert (Hrun : running s = true).
  { destruct (running s) eqn:Hr; [reflexivity|].
    apply proj2 in Harm. rewrite (Harm eq_refl) in Hcur. discriminate. }
  clear Hph Hid Harm Hpa Hdi.
  unfold completePhase, startPhase, jsRem, addHistoryPhase,
    addProgressForToday in Hstep.
  open_state s. subst cy tid run pau.
  assert (ci = 0 \/ ci = 1 \/ ci = 2) as [-> | [-> | ->]] by lia;
    vm_compute in Hat; injection Hat as <-; simpl in Hstep;
    injection Hstep as <-; constructor; simpl; try easy; try lia.
  all: intros ? [= <-]; simpl;
    (split; [exists a, b, c; repeat split; assumption
            | repeat split; try reflexivity; try lia;
              vm_compute; discriminate]).
Qed.

Lemma tick_Engine (now : Z) (s s' : State) :
  Engine s -> tick tz now s = Some s' -> Engine s'.
Proof.
  intros HE Hstep.
  destruct (timerId s) as [cur|] eqn:Hcur;
    [|unfold tick in Hstep; rewrite Hcur in Hstep; now injection Hstep as <-].
  destruct (paused s) eqn:Hp;
    [unfold tick in Hstep; rewrite Hcur, Hp in Hstep;
     now injection Hstep as <-|].
  rewrite (tick_running tz now cur s Hcur Hp) in Hstep.
  destruct (Z.leb_spec (timeLeft s - 1) 0) as [Hle|Hgt].
  - eapply completePhase_Engine; eassumption.
  - injection Hstep as <-.
    destruct HE as [Harm Hpa Hst Hdi Hcn Hid Hph].
    specialize (Hph cur Hcur). clear Hid.
    open_state s. subst tid pau.
    constructor; simpl; try easy.
    intros ? [= <-]. repeat split; try tauto; lia.
Qed.

Lemma pauseOrResume_Engine (s : State) : Engine s -> Engine (pauseOrResume s).
Proof.
  intros HE. unfold pauseOrResume.
  destruct (running s) eqn:Hr; [|exact HE]. simpl.
  destruct HE as [Harm Hpa Hst Hdi Hcn Hid Hph].
  open_state s. subst run. destruct pau; constructor; simpl; try easy.
Qed.

Lemma resetCycle_Engine (now : Z) (s : State) : Engine (resetCycle now s).
Proof.
  unfold resetCycle.
  destruct (finalizeSessionIfActive now s). constructor; simpl; easy.
Qed.

Lemma step_Engine (a : Action) (s s' : State) :
  Engine s -> step tz a s = Some s' -> Engine s'.
Proof.
  intros HE Hstep. destruct a as [now|now| |now|confirmed|inh0 hol0 exh0];
    simpl in Hstep.
  - eapply startCycle_Engine; eassumption.
  - eapply tick_Engine; eassumption.
  - injection Hstep as <-. now apply pauseOrResume_Engine.
  - injection Hstep as <-. apply resetCycle_Engine.
  - injection Hstep as <-. destruct HE as [Harm Hpa Hst Hdi Hcn Hid Hph].
    unfold clearAllHistory. destruct confirmed; simpl.
    + open_state s. now constructor.
    + now constructor.
  - injection Hstep as <-. destruct HE as [Harm Hpa Hst Hdi Hcn Hid Hph].
    open_state s. now constructor.
Qed.

Lemma reachable_Engine (s : State) : reachable tz s -> Engine s.
Proof.
  induction 1 as [inh hol exh lbl | a s s' _ IH Hstep].
  - apply Engine_init.
  - eapply step_Engine; eassumption.
Qed.
End EngineInvariant.

(** X1.  From boot, no handler ever reads a property of [undefined]: every
    action runs to a state in every state the machine can reach. *)
Theorem no_uncaught_error (tz : Z) (s : State) (a : Action) :
  reachable tz s -> exists s', step tz a s = Some s'.
Proof. intros Hr. apply step_total. now apply reachable_Inv. Qed.

Lemma no_uncaught_error_witness :
  exists s', step IST (Tick 1000) started478 = Some s'.
Proof.
  apply (no_uncaught_error IST started478 (Tick 1000)).
  apply (reach_step IST (Start 0) page478 started478);
    [apply reach_init | reflexivity].
Defined.

(** X3.  While an interval is armed the three phases have durations of at
    least one second, the phase being timed is [cycle[cycleIndex]] with the
    index in 0..2, and the seconds left are between 1 and the duration of
    that phase. *)
Theorem countdown_within_phase (tz : Z) (s : State) (cur : Phase.t) :
  reachable tz s -> timerId s = Some cur ->
  (forall p, In p (cycle s) -> 1 <= Phase.duration p)
  /\ 0 <= cycleIndex s < 3
  /\ at_index (cycle s) (cycleIndex s) = Some cur
  /\ 1 <= timeLeft s <= Phase.duration cur.
Proof.
  intros Hr Hcur. apply reachable_Engine in Hr.
  destruct (eng_phase s Hr cur Hcur)
    as ((a & b & c & Hcy & Pa & Pb & Pc) & Hci & Hat & _ & Htl).
  repeat split; try tauto; try lia.
  intros p Hp. rewrite Hcy in Hp.
  destruct Hp as [<- | [<- | [<- | []]]]; assumption.
Qed.

Lemma countdown_within_phase_witness :
  (forall p, In p (cycle started478) -> 1 <= Phase.duration p)
  /\ 0 <= cycleIndex started478 < 3
  /\ at_index (cycle started478) (cycleIndex started478)
     = Some (Phase.mk "Inhale" 4)
  /\ 1 <= timeLeft started478 <= 4.
Proof.
  apply (countdown_within_phase IST started478 (Phase.mk "Inhale" 4)).
  - apply (reach_step IST (Start 0) page478 started478);
      [apply reach_init | reflexivity].
  - reflexivity.
Defined.

(** ** A session of any length *)

(** Where the engine stands [r] seconds into a cycle of phases of [a], [b]
    and [c] seconds: the index of the phase and the seconds left in it. *)
Definition phaseAt (a b c r : Z) : Z * Z :=
  if r <? a then (0, a - r)
  else if r <? a + b then (1, a + b - r)
  else (2, a + b + c - r).

Definition nameOf (i : Z) : string :=
  if i =? 0 then "Inhale" else if i =? 1 then "Hold" else "Exhale".

Definition durOf (a b c i : Z) : Z :=
  if i =? 0 then a else if i =? 1 then b else c.

Definition offsetOf (a b i : Z) : Z :=
  if i =? 0 then 0 else if i =? 1 then a else a + b.

(** The engine [n] unpaused seconds into a session, [h0] being the length
    of the ledger when the session started. *)
Record Elapsed (a b c h0 n : Z) (s : State) : Prop := mkElapsed {
  el_cycle : cycle s = [Phase.mk "Inhale" a; Phase.mk "Hold" b;
                        Phase.mk "Exhale" c];
  el_index : 0 <= cycleIndex s < 3;
  el_timer : timerId s
             = Some (Phase.mk (nameOf (cycleIndex s))
                              (durOf a b c (cycleIndex s)));
  el_paused : paused s = false;
  el_left : 1 <= timeLeft s <= durOf a b c (cycleIndex s);
  el_count : 0 <= sessionCycles s;
  el_time : n = sessionCycles s * (a + b + c)
                + offsetOf a b (cycleIndex s)
                + (durOf a b c (cycleIndex s) - timeLeft s);
  el_ledger : Z.of_nat (length (historyData s))
              = h0 + 3 * sessionCycles s + cycleIndex s
}.

Section AnyLength.
Variable tz : Z.
Variables a b c h0 : Z.
Hypothesis a_pos : 0 < a.
Hypothesis b_pos : 0 < b.
Hypothesis c_pos : 0 < c.

Lemma Elapsed_closed_form (n : Z) (s : State) :
  Elapsed a b c h0 n s ->
  sessionCycles s = n / (a + b + c)
  /\ (cycleIndex s, timeLeft s) = phaseAt a b c (n mod (a + b + c)).
Proof.
  intros [Hcy Hci Htm Hp Hleft Hcnt Htime Hled].
  set (r := offsetOf a b (cycleIndex s)
            + (durOf a b c (cycleIndex s) - timeLeft s)).
  assert (Hr : 0 <= r < a + b + c).
  { unfold r, offsetOf, durOf in *.
    assert (cycleIndex s = 0 \/ cycleIndex s = 1 \/ cycleIndex s = 2)
      as [Hi | [Hi | Hi]] by lia; rewrite Hi in *; simpl in *; lia. }
  assert (Hn : n = (a + b + c) * sessionCycles s + r) by (unfold r; lia).
  assert (Hq : sessionCycles s = n / (a + b + c))
    by (apply (Z.div_unique_pos n (a + b + c) _ r); assumption).
  assert (Hm : r = n mod (a + b + c))
    by (apply (Z.mod_unique_pos n (a + b + c) (sessionCycles s) r);
        assumption).
  split; [exact Hq|]. rewrite <- Hm. unfold phaseAt, r, offsetOf, durOf in *.
  assert (cycleIndex s = 0 \/ cycleIndex s = 1 \/ cycleIndex s = 2)
    as [Hi | [Hi | Hi]] by lia; rewrite Hi in *; simpl in *.
  - destruct (Z.ltb_spec (0 + (a - timeLeft s)) a); [|lia].
    f_equal; lia.
  - destruct (Z.ltb_spec (a + (b - timeLeft s)) a); [lia|].
    destruct (Z.ltb_spec (a + (b - timeLeft s)) (a + b)); [|lia].
    f_equal; lia.
  - destruct (Z.ltb_spec (a + b + (c - timeLeft s)) a); [lia|].
    destruct (Z.ltb_spec (a + b + (c - timeLeft s)) (a + b)); [lia|].
    f_equal; lia.
Qed.

End AnyLength.

(** ** The three stores *)

Section Stores.
Variable tz : Z.



End Stores.


(** X8.  A confirmed clear empties the ledger, the summaries and the
    progress map, so that every range of the report is empty and every day
    counts zero, and touches nothing else: a running session goes on.  A
    declined clear changes nothing. *)
Theorem clear_empties_stores (s : State) :
  let s' := clearAllHistory true s in
  historyData s' = [] /\ sessionSummaries s' = []
  /\ (forall d, progressCount s' d = 0)
  /\ (forall tz now range, filterHistoryByRange tz now range s' = [])
  /\ transient s' = transient s /\ cycle s' = cycle s
  /\ (inhaleInput s', holdInput s', exhaleInput s', pauseBtn s')
     = (inhaleInput s, holdInput s, exhaleInput s, pauseBtn s)
  /\ clearAllHistory false s = s.
Proof.
  unfold filterHistoryByRange, progressCount. open_state s.
  repeat split.
  intros tz now range. destruct (String.eqb range "all"); [reflexivity|].
  destruct (JS.parseInt range 10) as [days|]; [|reflexivity].
  now destruct (rangeCutoff tz now days).
Qed.

(** X10.  Pause, any number of ticks, resume: a running engine whose button
    reads "Pause" is back in the very state it was paused in. *)
Theorem pause_resume_restores (tz : Z) (nows : list Z) (s : State) :
  running s = true -> paused s = false -> pauseBtn s = "Pause" ->
  pauseOrResume <$> ticks tz nows (pauseOrResume s) = Some s.
Proof.
  intros Hr Hp Hb.
  assert (Hpp : paused (pauseOrResume s) = true).
  { unfold pauseOrResume. rewrite Hr. open_state s. now subst pau. }
  assert (Hf : ticks tz nows (pauseOrResume s) = Some (pauseOrResume s)).
  { induction nows as [|now rest IH]; [reflexivity|].
    simpl. rewrite (tick_paused tz now _ Hpp). exact IH. }
  rewrite Hf. simpl. f_equal. unfold pauseOrResume. rewrite Hr.
  open_state s. now subst run pau pbt.
Qed.

Lemma pause_resume_restores_witness :
  pauseOrResume <$> ticks IST [1000; 2000] (pauseOrResume started478)
  = Some started478.
Proof.
  apply (pause_resume_restores IST [1000; 2000] started478); reflexivity.
Defined.

(** ** Ranges of the report *)

Section Ranges.
Variable tz : Z.

Lemma filter_sublist_mono (f g : Entry.t -> bool) (l : list Entry.t) :
  (forall h, f h = true -> g h = true) ->
  sublist (List.filter f l) (List.filter g l).
Proof.
  intros Hfg. induction l as [|h rest IH]; simpl; [constructor|].
  destruct (f h) eqn:Hf.
  - rewrite (Hfg h Hf). now constructor.
  - destruct (g h); [now constructor | exact IH].
Qed.

Lemma filter_sublist_all (f : Entry.t -> bool) (l : list Entry.t) :
  sublist (List.filter f l) l.
Proof.
  induction l as [|h rest IH]; simpl; [constructor|].
  destruct (f h); now constructor.
Qed.

(** X11.  A wider range never loses an entry, as long as its cutoff is a
    date a [Date] can hold: for N <= M, the cutoff of M being such a date,
    the entries reported for the last N days are, in the same order, among
    those reported for the last M days.  Whatever the range, the entries
    reported are among those of range "all", the whole ledger. *)
Theorem filter_range_monotone (now : Z) (r1 r2 : string) (N M : Z)
    (s : State) :
  JS.parseInt r1 10 = Some N -> JS.parseInt r2 10 = Some M -> N <= M ->
  inDateRange (startOfDay tz (minusDays now (M - 1))) ->
  inDateRange (minusDays now (M - 1)) ->
  sublist (filterHistoryByRange tz now r1 s)
          (filterHistoryByRange tz now r2 s)
  /\ sublist (filterHistoryByRange tz now r2 s)
             (filterHistoryByRange tz now "all" s)
  /\ filterHistoryByRange tz now "all" s = historyData s.
Proof.
  intros H1 H2 Hle HM1 HM2. unfold filterHistoryByRange.
  destruct (String.eqb_spec r1 "all") as [->|_];
    [vm_compute in H1; discriminate|].
  destruct (String.eqb_spec r2 "all") as [->|_];
    [vm_compute in H2; discriminate|].
  rewrite H1, H2, (rangeCutoff_Some tz now M HM1 HM2). simpl.
  split; [|split; [|reflexivity]].
  - unfold rangeCutoff.
    destruct (validTime (minusDays now (N - 1))
              && validTime (startOfDay tz (minusDays now (N - 1))));
      [|apply sublist_nil_l].
    apply filter_sublist_mono. intros h.
    rewrite !startOfDay_le, !localDay_minusDays, !Z.leb_le. lia.
  - apply filter_sublist_all.
Qed.

End Ranges.

Lemma filter_range_monotone_witness :
  sublist (filterHistoryByRange IST (noonIST 20000) "6" ledger_week)
          (filterHistoryByRange IST (noonIST 20000) "7" ledger_week)
  /\ sublist (filterHistoryByRange IST (noonIST 20000) "7" ledger_week)
             (filterHistoryByRange IST (noonIST 20000) "all" ledger_week)
  /\ filterHistoryByRange IST (noonIST 20000) "all" ledger_week
     = historyData ledger_week.
Proof.
  apply (filter_range_monotone IST (noonIST 20000) "6" "7" 6 7 ledger_week);
    [reflexivity | reflexivity | lia | | ]; vm_compute; split; discriminate.
Defined.

(** ** Persistence *)

(** What [localStorage.getItem] and [JSON.parse] make of one key: nothing
    stored under it (or the empty string); a blob that [JSON.parse], or the
    [map] over its result, throws on; a blob that parses to data of the
    shape the script writes. *)
Inductive Stored (A : Type) : Type :=
| Absent
| Malformed
| Parsed (v : A).
Arguments Absent {A}.
Arguments Malformed {A}.
Arguments Parsed {A} v.

(** An element of the stored history: a bare string, as old versions wrote
    them, or an entry. *)
Inductive Item : Type :=
| Legacy (text : string)
| Structured (e : Entry.t).

(** The three keys of the script in [localStorage]. *)
Record Storage := mkStorage {
  pranayama_history_v2 : Stored (list Item);
  pranayama_sessions_v1 : Stored (list Summary.t);
  pranayama_progress_v1 : Stored (gmap Z Z)
}.

(** The callback of [parsed.map] in [loadFromStorage]. *)
Definition upgradeItem (now : Z) (item : Item) : Entry.t :=
  match item with
  | Legacy text => Entry.mk now text 0 text
  | Structured e => e
  end.

Definition loadFromStorage (now : Z) (st : Storage) (s : State) : State :=
  let s :=
    match pranayama_history_v2 st with
    | Absent => s
    | Parsed parsed => s |> set_historyData (map (upgradeItem now) parsed)
    | Malformed => s |> set_historyData []
    end in
  let s :=
    match pranayama_sessions_v1 st with
    | Absent => s
    | Parsed parsed => s |> set_sessionSummaries parsed
    | Malformed => s |> set_sessionSummaries []
    end in
  match pranayama_progress_v1 st with
  | Absent => s
  | Parsed parsed => s |> set_progressData parsed
  | Malformed => s |> set_progressData ∅
  end.


(** ** The progress chart *)

From stdpp Require Import sorting.
Open Scope Z_scope.

Section Chart.
Variable tz : Z.

(** [new Date(key)] for a key of [progressData]: the local midnight of the
    day the key names.  (The locale is taken to be one whose date strings
    [Date] reads back, as en-US is.) *)
Definition dateOfKey (key : Z) : Z := key * msPerDay - tz.

(** The comparator [(a, b) => new Date(a) - new Date(b)] is not positive. *)
Definition notAfter (a b : Z) : Prop := dateOfKey a - dateOfKey b <= 0.

#[local] Instance notAfter_dec : RelDecision notAfter.
Proof. intros a b. unfold notAfter. apply Z_le_dec. Defined.

(** [Object.keys(progressData).sort(...)]: the keys are distinct, so the
    sorted array does not depend on the order the object lists them in. *)
Definition allDates (s : State) : list Z :=
  merge_sort notAfter (map_to_list (progressData s)).*1.

(** The [for] loop of [updateChart]: the keys of today - 6, ..., today. *)
Definition lastSevenDays (now : Z) : list Z :=
  map (fun i => dateKeyFromISO tz (minusDays now i)) [6; 5; 4; 3; 2; 1; 0].

(** The value of [labels] in [updateChart] before the test for emptiness. *)
Definition chartRangeLabels (now : Z) (rangeValue : string) (s : State)
    : list Z :=
  if String.eqb rangeValue "all" then allDates s else
  match JS.parseInt rangeValue 10 with
  | None => []
  | Some days =>
      let cutoff := minusDays now (days - 1) in
      List.filter (fun d => startOfDay tz cutoff <=? dateOfKey d) (allDates s)
  end.

(** [updateChart(rangeValue)]: the labels and the values [buildChart] is
    called with. *)
Definition updateChart (now : Z) (rangeValue : string) (s : State)
    : list Z * list Z :=
  let labels := chartRangeLabels now rangeValue s in
  let labels :=
    if Nat.eqb (length labels) 0 then lastSevenDays now else labels in
  let values := map (fun l => JS.orElse (progressData s !! l) 0) labels in
  (labels, values).



Lemma notAfter_le (a b : Z) : notAfter a b <-> a <= b.
Proof. unfold notAfter, dateOfKey, msPerDay. lia. Qed.

#[local] Instance notAfter_trans : Transitive notAfter.
Proof. intros x y z. rewrite !notAfter_le. lia. Qed.

#[local] Instance notAfter_total : Total notAfter.
Proof. intros x y. rewrite !notAfter_le. lia. Qed.


Lemma sorted_keys_ascending (m : gmap Z Z) :
  StronglySorted Z.lt (merge_sort notAfter (map_to_list m).*1).
Proof.
  assert (Hs : StronglySorted notAfter
                 (merge_sort notAfter (map_to_list m).*1))
    by (apply StronglySorted_merge_sort; typeclasses eauto).
  assert (Hn : NoDup (merge_sort notAfter (map_to_list m).*1))
    by (rewrite merge_sort_Permutation; apply NoDup_fst_map_to_list).
  induction Hs as [|x l Hl IH Hx]; [constructor|].
  apply NoDup_cons in Hn as [Hnx Hnl].
  constructor; [now apply IH|].
  rewrite Forall_forall in *. intros y Hy.
  specialize (Hx y Hy). apply (proj1 (notAfter_le x y)) in Hx.
  assert (x <> y) by (intros ->; now apply Hnx). lia.
Qed.

Lemma filter_ascending (f : Z -> bool) (l : list Z) :
  StronglySorted Z.lt l -> StronglySorted Z.lt (List.filter f l).
Proof.
  induction 1 as [|x l Hl IH Hx]; simpl; [constructor|].
  destruct (f x); [|exact IH]. constructor; [exact IH|].
  rewrite Forall_forall in *. intros y Hy.
  apply Hx. apply list_elem_of_In. apply list_elem_of_In in Hy.
  apply filter_In in Hy. tauto.
Qed.


Lemma lastSevenDays_eq (now : Z) :
  lastSevenDays now
  = map (fun i => localDay tz now - i) [6; 5; 4; 3; 2; 1; 0].
Proof.
  unfold lastSevenDays, dateKeyFromISO. simpl.
  now rewrite !localDay_minusDays.
Qed.

Lemma chartRangeLabels_ascending (now : Z) (range : string) (s : State) :
  StronglySorted Z.lt (chartRangeLabels now range s).
Proof.
  unfold chartRangeLabels, allDates.
  destruct (String.eqb range "all"); [apply sorted_keys_ascending|].
  destruct (JS.parseInt range 10); [|constructor].
  apply filter_ascending, sorted_keys_ascending.
Qed.

(** X14.  Whatever the range and the stored progress, the chart is built
    with at least one label, as many values as labels, the labels in
    strictly ascending order of date (so none twice), and each value the
    progress count of its label. *)
Theorem chart_labels_ascending (now : Z) (range : string) (s : State) :
  let '(labels, values) := updateChart now range s in
  labels <> [] /\ length values = length labels
  /\ StronglySorted Z.lt labels
  /\ values = map (progressCount s) labels.
Proof.
  unfold updateChart.
  pose proof (chartRangeLabels_ascending now range s) as Hs.
  destruct (chartRangeLabels now range s) as [|k rest]; simpl.
  - split; [discriminate|]. split; [reflexivity|]. split; [|reflexivity].
    change (StronglySorted Z.lt (lastSevenDays now)).
    rewrite lastSevenDays_eq. simpl.
    repeat (constructor; [|repeat constructor; lia]). constructor.
  - split; [discriminate|]. split; [now rewrite length_map|].
    split; [exact Hs|reflexivity].
Qed.




End Chart.




(** ** The ledger as text *)

Section Rendering.

(** [formatLocale]: the rendering of an instant in the user's locale. *)
Variable formatLocale : Z -> string.






End Rendering.

(** ** The report *)

(** The calls [exportFullPDF] makes on the document, in order. *)
Inductive PdfOp : Type :=
| SetFontSize (size : Z)
| Text (text : string) (x y : Z)
| AddPage
| AddImage (img format : string) (x y w h : Z)
| Save (filename : string).

(** The chart at the time of the export: none built; one whose
    [toBase64Image] throws; one that gives its image, which [addImage]
    places; one that gives an image [addImage] throws on, the page and the
    heading being already there. *)
Inductive ChartImage : Type :=
| NoChart
| ImageFails
| Image (png : string)
| AddImageFails (png : string).

(** [Math.round(x / d)] for integers [x] and [d > 0], within the range
    where the quotient is exact to well under a half. *)
Definition roundDiv (x d : Z) : Z := (2 * x + d) / (2 * d).

Section Report.
Variable tz : Z.
Variable formatLocale : Z -> string.

(** The session block: the operations and the value of [y] after them. *)
Definition sessionBlock (now : Z) (s : State) (y : Z) : list PdfOp * Z :=
  if sessionActive s || negb (Nat.eqb (length (sessionSummaries s)) 0) then
    let '(live, y) :=
      if sessionActive s then
        let start := default now (sessionStartTime s) in
        let durationMin := roundDiv (now - start) 60000 in
        ([ Text ("• Current (live) session started: "
                 +:+ formatLocale start) 18 y;
           Text ("• Cycles completed (this session): "
                 +:+ JS.toString (sessionCycles s)) 18 (y + 6);
           Text ("• Session duration (approx): "
                 +:+ JS.toString durationMin +:+ " min") 18 (y + 6 + 6) ],
         y + 6 + 6 + 8)
      else ([], y) in
    let '(saved, y) :=
      match List.last (map Some (sessionSummaries s)) None with
      | Some last =>
          ([ Text ("• Last saved session: "
                   +:+ formatLocale (Summary.startISO last) +:+ " → "
                   +:+ formatLocale (Summary.endISO last)) 18 y;
             Text ("  Cycles: " +:+ JS.toString (Summary.cycles last)
                   +:+ ", Duration: "
                   +:+ JS.toString (roundDiv (Summary.durationSec last) 60)
                   +:+ " min") 18 (y + 6) ],
           y + 6 + 8)
      | None => ([], y)
      end in
    (live ++ saved, y)
  else ([Text "• No session data recorded yet." 18 y], y + 8).

Definition instructions : list string :=
  [ "• Sit comfortably in a quiet place.";
    "• Close your eyes & relax your body.";
    "• Follow the timer: Inhale → Hold → Exhale.";
    "• Use Pause/Reset controls as needed." ].

(** [instructions.forEach(line => { pdf.text(line, 18, y); y += 6; })]. *)
Fixpoint instructionLines (lines : list string) (y : Z) : list PdfOp * Z :=
  match lines with
  | [] => ([], y)
  | line :: rest =>
      let '(ops, y') := instructionLines rest (y + 6) in
      (Text line 18 y :: ops, y')
  end.

(** The [forEach] over the filtered history, from the entry of index
    [idx] on. *)
Fixpoint historyLines (idx : Z) (hs : list Entry.t) (y : Z)
    : list PdfOp * Z :=
  match hs with
  | [] => ([], y)
  | h :: rest =>
      let '(brk, y) := if 270 <? y then ([AddPage], 18) else ([], y) in
      let line :=
        Text (JS.toString (idx + 1) +:+ ". "
              +:+ formatLocale (Entry.ts h) +:+ " - " +:+ Entry.phase h
              +:+ " (" +:+ JS.toString (Entry.duration h) +:+ "s)") 18 y in
      let '(ops, y') := historyLines (idx + 1) rest (y + 6) in
      (brk ++ line :: ops, y')
  end.

Definition exportFullPDF (now : Z) (range : string) (chart : ChartImage)
    (s : State) : list PdfOp :=
  let filteredHistory := filterHistoryByRange tz now range s in
  let head :=
    [ SetFontSize 18;
      Text "Pranayama Breath Timer Report" 14 18;
      SetFontSize 10;
      Text ("Generated: " +:+ formatLocale now) 14 26;
      Text ("Range: " +:+ (if String.eqb range "all" then "All Time"
                           else "Last " +:+ range +:+ " Days")) 14 32;
      SetFontSize 12;
      Text "Session Summary:" 14 44;
      SetFontSize 10 ] in
  let y := 50 in
  let '(session, y) := sessionBlock now s y in
  let '(instr, y1) := instructionLines instructions (y + 6) in
  let instrBlock :=
    [SetFontSize 12; Text "Instructions:" 14 y; SetFontSize 10] ++ instr in
  let y := y1 + 6 in
  let histHead :=
    [SetFontSize 12; Text "History (filtered):" 14 y; SetFontSize 10] in
  let y := y + 6 in
  let '(hist, y) :=
    if Nat.eqb (length filteredHistory) 0
    then ([Text "No history available for this range." 18 y], y + 8)
    else let '(ops, y) := historyLines 0 filteredHistory y in (ops, y + 6) in
  let chartPage :=
    match chart with
    | NoChart => []
    | Image png =>
        [ AddPage; SetFontSize 12;
          Text "Progress Chart (filtered):" 14 20;
          AddImage png "PNG" 14 28 180 90 ]
    | ImageFails => [AddPage; Text "Unable to embed chart image." 14 20]
    | AddImageFails png =>
        [ AddPage; SetFontSize 12;
          Text "Progress Chart (filtered):" 14 20;
          AddPage; Text "Unable to embed chart image." 14 20 ]
    end in
  head ++ session ++ instrBlock ++ histHead ++ hist ++ chartPage
       ++ [Save "pranayama_full_report.pdf"].

End Report.

(** A text placed inside the page: at the left margin or indented, and
    between the top line and the last line of a page. *)
Definition textOnPage (op : PdfOp) : Prop :=
  match op with
  | Text _ x y => (x = 14 \/ x = 18) /\ 18 <= y <= 270
  | _ => True
  end.

Definition isAddPage (op : PdfOp) : bool :=
  match op with AddPage => true | _ => false end.

(** Pages of the document: the first, and one for each [addPage]. *)
Definition pageCount (ops : list PdfOp) : Z :=
  1 + Z.of_nat (length (List.filter isAddPage ops)).

(** History lines the first page has room for, after the session block. *)
Definition firstPageLines (s : State) : Z :=
  match sessionActive s, sessionSummaries s with
  | false, [] => 29
  | false, _ :: _ => 28
  | true, [] => 27
  | true, _ :: _ => 25
  end.

Section ReportLayout.
Variable tz : Z.
Variable formatLocale : Z -> string.

Lemma last_Some (sm : Summary.t) (rest : list Summary.t) :
  exists x, List.last (map Some (sm :: rest)) None = Some x.
Proof.
  revert sm. induction rest as [|sm' rest IH]; intros sm; [now exists sm|].
  destruct (IH sm') as [x Hx]. exists x. exact Hx.
Qed.

Lemma sessionBlock_layout (now : Z) (s : State) :
  Forall textOnPage (fst (sessionBlock formatLocale now s 50))
  /\ List.filter isAddPage (fst (sessionBlock formatLocale now s 50)) = []
  /\ (276 - (snd (sessionBlock formatLocale now s 50) + 42)) / 6
     = firstPageLines s
  /\ 58 <= snd (sessionBlock formatLocale now s 50) <= 84.
Proof.
  unfold sessionBlock, firstPageLines.
  destruct (sessionActive s); destruct (sessionSummaries s) as [|sm rest].
  - simpl. repeat split; try lia; repeat constructor; simpl; lia.
  - destruct (last_Some sm rest) as [x ->]. cbn [orb negb length Nat.eqb].
    cbn. repeat split; try lia; repeat constructor; simpl; lia.
  - simpl. repeat split; try lia; repeat constructor; simpl; lia.
  - destruct (last_Some sm rest) as [x ->]. cbn [orb negb length Nat.eqb].
    cbn. repeat split; try lia; repeat constructor; simpl; lia.
Qed.

Lemma historyLines_layout (hs : list Entry.t) (idx y : Z) :
  18 <= y <= 276 ->
  Forall textOnPage (fst (historyLines formatLocale idx hs y))
  /\ Z.of_nat (length (List.filter isAddPage
                         (fst (historyLines formatLocale idx hs y))))
     = (if Z.of_nat (length hs) <=? (276 - y) / 6 then 0
        else (Z.of_nat (length hs) - (276 - y) / 6 + 42) / 43).
Proof.
  revert idx y. induction hs as [|h rest IH]; intros idx y Hy.
  - simpl. split; [constructor|]. change (Z.of_nat 0) with 0.
    destruct (Z.leb_spec 0 ((276 - y) / 6)) as [_|Hneg]; [reflexivity|].
    pose proof (Z.div_pos (276 - y) 6 ltac:(lia) ltac:(lia)). lia.
  - cbn [historyLines].
    destruct (Z.ltb_spec 270 y) as [Hbrk|Hfit].
    + specialize (IH (idx + 1) (18 + 6) ltac:(lia)).
      destruct (historyLines formatLocale (idx + 1) rest (18 + 6))
        as [ops y'] eqn:Hrec.
      simpl in IH. destruct IH as [IH1 IH2]. simpl. split.
      * constructor; [exact I|]. constructor; [simpl; lia | exact IH1].
      * rewrite Nat2Z.inj_succ, IH2.
        change ((276 - (18 + 6)) / 6) with 42.
        replace ((276 - y) / 6) with 0
          by (symmetry; apply Z.div_small; lia).
        rewrite Nat2Z.inj_succ.
        destruct (Z.leb_spec (Z.of_nat (length rest)) 42);
          destruct (Z.leb_spec (Z.succ (Z.of_nat (length rest))) 0);
          Z.div_mod_to_equations; lia.
    + specialize (IH (idx + 1) (y + 6) ltac:(lia)).
      destruct (historyLines formatLocale (idx + 1) rest (y + 6))
        as [ops y'] eqn:Hrec.
      simpl in IH. destruct IH as [IH1 IH2]. simpl. split.
      * constructor; [simpl; lia | exact IH1].
      * rewrite IH2, Nat2Z.inj_succ.
        replace ((276 - (y + 6)) / 6) with ((276 - y) / 6 - 1)
          by (Z.div_mod_to_equations; lia).
        destruct (Z.leb_spec (Z.of_nat (length rest)) ((276 - y) / 6 - 1));
          destruct (Z.leb_spec (Z.succ (Z.of_nat (length rest)))
                               ((276 - y) / 6));
          Z.div_mod_to_equations; lia.
Qed.

Lemma filter_isAddPage_app (l1 l2 : list PdfOp) :
  List.filter isAddPage (l1 ++ l2)
  = List.filter isAddPage l1 ++ List.filter isAddPage l2.
Proof. apply List.filter_app. Qed.

(** X19.  Whatever the ledger, the range, the session and the chart, every
    text of the report is placed at x = 14 or x = 18 and between y = 18 and
    y = 270: no line of the history runs off the bottom of a page. *)
Theorem report_text_on_page (now : Z) (range : string) (chart : ChartImage)
    (s : State) :
  Forall textOnPage (exportFullPDF tz formatLocale now range chart s).
Proof.
  unfold exportFullPDF.
  destruct (sessionBlock_layout now s) as (Hs1 & _ & _ & Hs3).
  destruct (sessionBlock formatLocale now s 50) as [session y] eqn:Hsb.
  simpl in Hs1, Hs3. cbn [instructionLines instructions].
  set (hs := filterHistoryByRange tz now range s).
  destruct (historyLines_layout hs 0 (y + 6 + 6 + 6 + 6 + 6 + 6 + 6)
              ltac:(lia)) as [Hh _].
  destruct (historyLines formatLocale 0 hs (y + 6 + 6 + 6 + 6 + 6 + 6 + 6))
    as [hops yh] eqn:Hhl.
  simpl in Hh.
  destruct (Nat.eqb (length hs) 0); cbv beta iota zeta;
    repeat (apply Forall_app; split);
    try exact Hs1; try exact Hh;
    try (destruct chart);
    repeat (apply List.Forall_cons; [simpl; first [exact I | lia]|]);
    apply List.Forall_nil.
Qed.

(** X20.  The report has its first page, as many more pages as the history
    needs, and for the chart: no page when none was built, one page when
    its image is placed or cannot be produced, two when the image is
    produced and cannot be placed (the page of the heading, then the page
    of the message).  The first page takes 29 lines of history (28 after a
    saved summary, 27 during a live session, 25 with both) and every
    further page 43. *)
Theorem report_page_count (now : Z) (range : string) (chart : ChartImage)
    (s : State) :
  let n := Z.of_nat (length (filterHistoryByRange tz now range s)) in
  pageCount (exportFullPDF tz formatLocale now range chart s)
  = 1
    + (if n <=? firstPageLines s then 0
       else (n - firstPageLines s + 42) / 43)
    + (match chart with
       | NoChart => 0
       | ImageFails | Image _ => 1
       | AddImageFails _ => 2
       end).
Proof.
  unfold exportFullPDF, pageCount.
  destruct (sessionBlock_layout now s) as (_ & Hs2 & Hs4 & Hs3).
  destruct (sessionBlock formatLocale now s 50) as [session y] eqn:Hsb.
  simpl in Hs2, Hs3, Hs4. cbn [instructionLines instructions].
  set (hs := filterHistoryByRange tz now range s).
  destruct (historyLines_layout hs 0 (y + 6 + 6 + 6 + 6 + 6 + 6 + 6)
              ltac:(lia)) as [_ Hh].
  replace ((276 - (y + 6 + 6 + 6 + 6 + 6 + 6 + 6)) / 6)
    with (firstPageLines s) in Hh by (rewrite <- Hs4; f_equal; lia).
  destruct (historyLines formatLocale 0 hs (y + 6 + 6 + 6 + 6 + 6 + 6 + 6))
    as [hops yh] eqn:Hhl.
  simpl in Hh.
  assert (Hfl : 25 <= firstPageLines s)
    by (unfold firstPageLines; destruct (sessionActive s);
        destruct (sessionSummaries s); lia).
  destruct (Nat.eqb (length hs) 0) eqn:Hn; cbv beta iota zeta;
    rewrite !filter_isAddPage_app, Hs2; simpl List.filter;
    rewrite ?app_nil_r, ?length_app, ?Nat2Z.inj_add.
  - apply Nat.eqb_eq in Hn. rewrite Hn. change (Z.of_nat 0) with 0.
    destruct (Z.leb_spec 0 (firstPageLines s)); [|lia].
    destruct chart; simpl; lia.
  - rewrite Hh. destruct chart; simpl; lia.
Qed.

End ReportLayout.

(** ** The duration fields while a session runs *)

Section Fields.
Variable tz : Z.

(** X21.  Typing into the duration fields while the timer runs does not
    touch the countdown: ticks after an edit give the state that the same
    edit after the same ticks gives. *)
Theorem edit_commutes_with_ticks (vi vh ve : string) (nows : list Z)
    (s : State) :
  ticks tz nows (editInputs vi vh ve s)
  = editInputs vi vh ve <$> ticks tz nows s.
Proof.
  revert s. induction nows as [|now rest IH]; intros s; [reflexivity|].
  assert (Htick : tick tz now (editInputs vi vh ve s)
                  = editInputs vi vh ve <$> tick tz now s).
  { unfold tick, completePhase, startPhase, jsRem, addHistoryPhase,
      addProgressForToday.
    open_state s. destruct tid as [cur|]; [|reflexivity].
    destruct pau; [reflexivity|]. simpl.
    destruct (tl - 1 <=? 0); [|reflexivity].
    destruct (_ =? 0); [reflexivity|]. simpl.
    destruct (String.eqb _ _); simpl; destruct (at_index _ _); reflexivity. }
  simpl. rewrite Htick. destruct (tick tz now s) as [s1|]; simpl;
    [apply IH | reflexivity].
Qed.

(** The fields are as they were at boot, and the cycle of a running engine
    is the one built from them. *)
Definition unedited (vi vh ve : string) (s : State) : Prop :=
  inhaleInput s = vi /\ holdInput s = vh /\ exhaleInput s = ve
  /\ (running s = true -> cycle s = cycle (setupCycleFromInputs s)).

Definition isEdit (a : Action) : bool :=
  match a with EditInputs _ _ _ => true | _ => false end.

Lemma step_unedited (vi vh ve : string) (a : Action) (s s' : State) :
  isEdit a = false -> unedited vi vh ve s -> step tz a s = Some s' ->
  unedited vi vh ve s'.
Proof.
  intros Ha (H1 & H2 & H3 & H4) Hstep.
  destruct a as [now|now| |now|confirmed|i0 h0 e0]; simpl in Hstep;
    try discriminate.
  - unfold startCycle in Hstep. destruct (running s) eqn:Hr.
    + injection Hstep as <-. repeat split; try assumption. now rewrite Hr.
    + clear H4. unfold startPhase, setupCycleFromInputs in Hstep.
      open_state s. destruct act; cbn in Hstep; injection Hstep as <-;
        repeat split; assumption.
  - destruct (timerId s) as [cur|] eqn:Hcur;
      [|unfold tick in Hstep; rewrite Hcur in Hstep;
        injection Hstep as <-; now repeat split].
    destruct (paused s) eqn:Hp;
      [unfold tick in Hstep; rewrite Hcur, Hp in Hstep;
       injection Hstep as <-; now repeat split|].
    rewrite (tick_running tz now cur s Hcur Hp) in Hstep.
    destruct (timeLeft s - 1 <=? 0).
    + unfold completePhase, startPhase, jsRem, addHistoryPhase,
        addProgressForToday, setupCycleFromInputs in *.
      open_state s. destruct (_ =? 0); [discriminate|]. simpl in Hstep.
      destruct (String.eqb _ _); simpl in Hstep;
        destruct (at_index _ _); simpl in Hstep; try discriminate;
        injection Hstep as <-; repeat split; assumption.
    + injection Hstep as <-. unfold setupCycleFromInputs in *.
      open_state s. repeat split; assumption.
  - injection Hstep as <-. unfold pauseOrResume, setupCycleFromInputs in *.
    destruct (running s) eqn:Hr; simpl.
    + open_state s. repeat split; try assumption. intros _. now apply H4.
    + repeat split; try assumption. now rewrite Hr.
  - injection Hstep as <-. unfold resetCycle, finalizeSessionIfActive.
    clear H4. destruct (sessionActive s); open_state s;
      repeat split; try assumption; discriminate.
  - injection Hstep as <-. unfold clearAllHistory, setupCycleFromInputs in *.
    destruct confirmed; simpl; [|now repeat split].
    open_state s. repeat split; assumption.
Qed.

Lemma run_unedited (vi vh ve : string) (acts : list Action)
    (s s' : State) :
  forallb (fun a => negb (isEdit a)) acts = true ->
  unedited vi vh ve s -> run tz acts s = Some s' ->
  unedited vi vh ve s'.
Proof.
  revert s. induction acts as [|a rest IH]; intros s Hno Hu Hrun;
    simpl in Hrun.
  - now injection Hrun as <-.
  - simpl in Hno. apply andb_prop in Hno as [Ha Hrest].
    destruct (step tz a s) as [s1|] eqn:Hs1; [|discriminate].
    simpl in Hrun. apply (IH s1 Hrest); [|exact Hrun].
    eapply step_unedited; [|exact Hu|exact Hs1].
    now destruct (isEdit a).
Qed.

(** X22.  As long as the duration fields are left as they were at boot and
    none of them holds a negative number, the summary a reset appends
    records the durations of the cycle that ran. *)
Theorem summary_durations_unedited_run (vi vh ve lbl : string)
    (acts : list Action) (now : Z) (s : State) :
  forallb (fun a => negb (isEdit a)) acts = true ->
  run tz acts (init vi vh ve lbl) = Some s ->
  sessionActive s = true ->
  (forall n, JS.parseInt vi 0 = Some n -> 0 <= n) ->
  (forall n, JS.parseInt vh 0 = Some n -> 0 <= n) ->
  (forall n, JS.parseInt ve 0 = Some n -> 0 <= n) ->
  exists sm,
    sessionSummaries (resetCycle now s) = sessionSummaries s ++ [sm]
    /\ map Phase.duration (cycle s)
       = [Summary.inhale sm; Summary.hold sm; Summary.exhale sm].
Proof.
  intros Hno Hrun Hact Pa Pb Pc.
  assert (Hu : unedited vi vh ve s).
  { apply (run_unedited vi vh ve acts (init vi vh ve lbl) s Hno);
      [|exact Hrun]. repeat split. discriminate. }
  assert (Hr : running s = true).
  { destruct (run_Inv tz acts (init vi vh ve lbl)
                (Inv_init tz vi vh ve lbl)) as (s2 & Hrun2 & HI).
    rewrite Hrun in Hrun2. injection Hrun2 as <-.
    now rewrite (inv_flags tz s HI). }
  destruct Hu as (H1 & H2 & H3 & H4). specialize (H4 Hr).
  assert (Q : forall (v : string) (d : Z),
            0 < d -> (forall n, JS.parseInt v 0 = Some n -> 0 <= n) ->
            Z.max 1 (JS.orElse (JS.parseInt v 0) d)
            = JS.orElse (JS.parseInt v 0) d).
  { intros v d Hd Hv. destruct (JS.parseInt v 0) as [n|]; simpl; [|lia].
    specialize (Hv n eq_refl). destruct n; simpl; lia. }
  unfold resetCycle, finalizeSessionIfActive. rewrite Hact.
  unfold setupCycleFromInputs in H4.
  open_state s. subst vi vh ve cy. eexists. split; [reflexivity|].
  simpl. now rewrite !Q by (assumption || lia).
Qed.

End Fields.

Lemma summary_durations_unedited_run_witness :
  exists sm,
    sessionSummaries (resetCycle 30000 started478)
    = sessionSummaries started478 ++ [sm]
    /\ map Phase.duration (cycle started478)
       = [Summary.inhale sm; Summary.hold sm; Summary.exhale sm].
Proof.
  apply (summary_durations_unedited_run IST "4" "7" "8" "Pause"
           [Start 0] 30000 started478).
  - reflexivity.
  - reflexivity.
  - reflexivity.
  - intros n H. vm_compute in H. injection H as <-. lia.
  - intros n H. vm_compute in H. injection H as <-. lia.
  - intros n H. vm_compute in H. injection H as <-. lia.
Defined.

(** * The handlers in the browser

    Above, the handlers are taken at their best: one reading of the clock,
    every write to storage returning, counters that are exact integers.
    Here the handlers that write to storage are taken with what the browser
    gives them.  Each [new Date()] reads the clock on its own.  Each
    [localStorage.setItem] returns or throws (storage full or disabled); no
    handler catches the exception, so it ends the handler there, with the
    variables as they are at that point, and the handlers that follow find
    them so.  Each counter is the double the script computes. *)

Module IO.

(** How a handler ends, and the state it leaves. *)
Inductive Result : Type :=
| Returned (s : State)
| Threw (s : State).

Definition left (r : Result) : State :=
  match r with Returned s | Threw s => s end.

(** [localStorage.setItem(key, JSON.stringify(data))]; [ok] tells whether
    it returns.  The three stores are written by three functions. *)
Definition setItem (ok : bool) (s : State) : Result :=
  if ok then Returned s else Threw s.

Definition saveHistoryToStorage := setItem.
Definition saveSessionsToStorage := setItem.
Definition saveProgressToStorage := setItem.

(** What one firing of the interval callback is given: the instant
    [nowISO()] reads in [addHistoryPhase], the instant [new Date()] reads
    in [addProgressForToday], and the fate of the write of the history, of
    the write of the progress in [addProgressForToday] and of the write of
    the progress that follows it in the callback. *)
Record Firing := mkFiring {
  nowISO : Z;
  today : Z;
  historySaved : bool;
  progressSaved : bool;
  progressSavedAgain : bool
}.

Section Handlers.
Variable tz : Z.

Definition addHistoryPhase (f : Firing) (phase : string) (duration : Z)
    (s : State) : Result :=
  let entry :=
    Entry.mk (nowISO f) phase duration
             (phase +:+ " (" +:+ JS.toString duration +:+ "s)") in
  let s := s |> set_historyData (historyData s ++ [entry]) in
  saveHistoryToStorage (historySaved f) s.

Definition addProgressForToday (f : Firing) (count : Z) (s : State)
    : Result :=
  let key := dateKeyFromISO tz (today f) in
  let s :=
    s |> set_progressData
           (<[key := JS.toDouble (JS.orElse (progressData s !! key) 0 + count)]>
              (progressData s)) in
  saveProgressToStorage (progressSaved f) s.

(** The body of [if (timeLeft <= 0) { ... }] in the interval callback. *)
Definition completePhase (f : Firing) (current : Phase.t) (s : State)
    : option Result :=
  let s := s |> set_timerId None in
  match addHistoryPhase f (Phase.phase current) (Phase.duration current) s with
  | Threw s => Some (Threw s)
  | Returned s =>
      idx ← jsRem (cycleIndex s + 1) (Z.of_nat (length (cycle s)));
      let s := s |> set_cycleIndex idx in
      if String.eqb (JS.toLowerCase (Phase.phase current)) "exhale" then
        let s := s |> set_sessionCycles (JS.toDouble (sessionCycles s + 1)) in
        match addProgressForToday f 1 s with
        | Threw s => Some (Threw s)
        | Returned s =>
            match saveProgressToStorage (progressSavedAgain f) s with
            | Threw s => Some (Threw s)
            | Returned s => Returned <$> startPhase s
            end
        end
      else Returned <$> startPhase s
  end.

(** One firing of the interval callback. *)
Definition tick (f : Firing) (s : State) : option Result :=
  match timerId s with
  | None => Some (Returned s)
  | Some current =>
      if paused s then Some (Returned s) else
      let s := s |> set_timeLeft (JS.toDouble (timeLeft s - 1)) in
      let s := s |> set_timeDisplay (JS.padStart2 (JS.toString (timeLeft s))) in
      if timeLeft s <=? 0 then completePhase f current s
      else Some (Returned s)
  end.

(** Firings one after the other, each finding the state the one before
    left. *)
Fixpoint ticks (fs : list Firing) (s : State) : option State :=
  match fs with
  | [] => Some s
  | f :: rest => r ← tick f s; ticks rest (left r)
  end.

Definition finalizeSessionIfActive (now : Z) (saved : bool) (s : State)
    : Result :=
  if negb (sessionActive s) then Returned s else
  let s := s |> set_sessionActive false in
  let end_ := now in
  let start := default end_ (sessionStartTime s) in
  let durationSec := JS.roundDiv1000 (end_ - start) in
  let summary :=
    Summary.mk start end_ (sessionCycles s) durationSec
               (JS.orElse (JS.parseInt (inhaleInput s) 0) 4)
               (JS.orElse (JS.parseInt (holdInput s) 0) 7)
               (JS.orElse (JS.parseInt (exhaleInput s) 0) 8) in
  let s := s |> set_sessionSummaries (sessionSummaries s ++ [summary]) in
  saveSessionsToStorage saved s.

(** The write is the last statement of [finalizeSessionIfActive], the
    first call of [resetCycle]: when it throws, nothing of what follows in
    [resetCycle] runs.  ([speechSynthesis.cancel()], the last statement,
    assigns no variable.) *)
Definition resetCycle (now : Z) (saved : bool) (s : State) : Result :=
  match finalizeSessionIfActive now saved s with
  | Threw s => Threw s
  | Returned s =>
      Returned (s |> set_timerId None
                  |> set_running false
                  |> set_paused false
                  |> set_sessionActive false
                  |> set_sessionStartTime None
                  |> set_sessionCycles 0
                  |> set_cycleIndex 0
                  |> set_timeLeft 0
                  |> set_phaseDisplay "Press Start"
                  |> set_timeDisplay "00"
                  |> set_pauseBtn "Pause")
  end.

(** The three stores are emptied first, then written one after the
    other. *)
Definition clearAllHistory (confirmed : bool)
    (historySaved sessionsSaved progressSaved : bool) (s : State) : Result :=
  if negb confirmed then Returned s else
  let s :=
    s |> set_historyData [] |> set_sessionSummaries [] |> set_progressData ∅ in
  match saveHistoryToStorage historySaved s with
  | Threw s => Threw s
  | Returned s =>
      match saveSessionsToStorage sessionsSaved s with
      | Threw s => Threw s
      | Returned s => saveProgressToStorage progressSaved s
      end
  end.

Inductive Action :=
| Start (now : Z)
| Tick (f : Firing)
| PauseToggle
| Reset (now : Z) (saved : bool)
| Clear (confirmed : bool) (historySaved sessionsSaved progressSaved : bool)
| EditInputs (inh hol exh : string).

(** The state an action leaves, whether its handler returned or threw. *)
Definition step (a : Action) (s : State) : option State :=
  match a with
  | Start now => startCycle now s
  | Tick f => left <$> tick f s
  | PauseToggle => Some (pauseOrResume s)
  | Reset now saved => Some (left (resetCycle now saved s))
  | Clear confirmed h ss p => Some (left (clearAllHistory confirmed h ss p s))
  | EditInputs inh hol exh => Some (editInputs inh hol exh s)
  end.

Fixpoint run (acts : list Action) (s : State) : option State :=
  match acts with
  | [] => Some s
  | a :: rest => s' ← step a s; run rest s'
  end.

(** The states the page can be in: those the actions leave, from a boot
    on a storage each key of which is absent, unreadable, or holds data of
    the shape the script writes. *)
Inductive reachable : State -> Prop :=
| reach_boot now st inh hol exh lbl :
    reachable (loadFromStorage now st (init inh hol exh lbl))
| reach_step a s s' : reachable s -> step a s = Some s' -> reachable s'.

End Handlers.

End IO.

(** ** Counting in doubles *)

(** Integers up to [2^53] in size are stored as they are. *)
Lemma toDouble_small (z : Z) : Z.abs z <= 2 ^ 53 -> JS.toDouble z = z.
Proof.
  change (2 ^ 53) with 9007199254740992. intros Hz.
  destruct (Z.eq_dec z 9007199254740992) as [->|H1]; [reflexivity|].
  destruct (Z.eq_dec z (-9007199254740992)) as [->|H2]; [reflexivity|].
  unfold JS.toDouble, JS.roundAbs. change (2 ^ 53) with 9007199254740992.
  destruct (Z.ltb_spec z 0).
  - destruct (Z.ltb_spec (- z) 9007199254740992); lia.
  - destruct (Z.ltb_spec z 9007199254740992); lia.
Qed.

(** The state after [timeLeft--] gave [x] and the display was updated. *)
Definition counted (x : Z) (s : State) : State :=
  s |> set_timeLeft x |> set_timeDisplay (JS.padStart2 (JS.toString x)).

Section Countdown.
Variable tz : Z.

Lemma IO_ticks_app (l1 l2 : list IO.Firing) (s : State) :
  IO.ticks tz (l1 ++ l2) s = IO.ticks tz l1 s ≫= IO.ticks tz l2.
Proof.
  revert s. induction l1 as [|f rest IH]; intros s; [reflexivity|].
  simpl. destruct (IO.tick tz f s) as [r|]; simpl; [apply IH | reflexivity].
Qed.

Lemma counted_counted (x y : Z) (s : State) :
  counted x (counted y s) = counted x s.
Proof. open_state s. reflexivity. Qed.

(** A firing of the callback while the timer is armed and not paused. *)
Lemma IO_tick_running (f : IO.Firing) (cur : Phase.t) (s : State) :
  timerId s = Some cur -> paused s = false ->
  IO.tick tz f s
  = let x := JS.toDouble (timeLeft s - 1) in
    if x <=? 0 then IO.completePhase tz f cur (counted x s)
    else Some (IO.Returned (counted x s)).
Proof.
  intros Hcur Hp. unfold IO.tick. rewrite Hcur, Hp. unfold counted.
  open_state s. reflexivity.
Qed.

(** A phase with [n + 1] seconds left, at most [2^53], completes at the
    [n + 1]-th firing; the firings before it write nothing. *)
Lemma IO_ticks_phase (fs : list IO.Firing) (f : IO.Firing) (cur : Phase.t)
    (s : State) :
  timerId s = Some cur -> paused s = false ->
  timeLeft s = Z.of_nat (length fs) + 1 -> timeLeft s <= 2 ^ 53 ->
  IO.ticks tz (fs ++ [f]) s
  = IO.left <$> IO.completePhase tz f cur (counted 0 s).
Proof.
  revert s. induction fs as [|t rest IH]; intros s Hcur Hp Hleft Hmax.
  - simpl. rewrite (IO_tick_running f cur s Hcur Hp).
    simpl length in Hleft. rewrite Hleft.
    change (JS.toDouble (Z.of_nat 0 + 1 - 1)) with 0. cbv zeta.
    change (0 <=? 0) with true. cbv iota.
    now destruct (IO.completePhase tz f cur (counted 0 s)).
  - simpl. rewrite (IO_tick_running t cur s Hcur Hp). cbv zeta.
    simpl length in Hleft.
    rewrite toDouble_small by lia.
    destruct (Z.leb_spec (timeLeft s - 1) 0) as [Hle|Hgt]; [lia|].
    simpl. rewrite IH.
    + now rewrite counted_counted.
    + open_state s. exact Hcur.
    + open_state s. exact Hp.
    + unfold counted. open_state s. lia.
    + unfold counted. open_state s. lia.
Qed.

End Countdown.

(** ** One full cycle *)

Section FullCycleIO.
Variable tz : Z.

(** C3 (as the script has it).  With positive durations a, b, c of at most
    2^53 seconds configured, a session started from the idle page and
    given a + b + c firings (none paused), the writes to storage of the
    three firings that complete a phase succeeding, ends with one completed
    cycle, three new ledger entries, Inhale, Hold and Exhale of durations
    a, b and c in that order, each stamped at the firing that completed it,
    and the progress of the day read at the last firing one higher (the
    count of that day being less than 2^53 in size); the engine is back at
    the first phase. *)
Theorem full_cycle_completes (now0 a b c : Z) (r1 r2 r3 : list IO.Firing)
    (f1 f2 f3 : IO.Firing) (s : State) :
  running s = false -> sessionActive s = false ->
  JS.parseInt (inhaleInput s) 0 = Some a ->
  JS.parseInt (holdInput s) 0 = Some b ->
  JS.parseInt (exhaleInput s) 0 = Some c ->
  0 < a <= 2 ^ 53 -> 0 < b <= 2 ^ 53 -> 0 < c <= 2 ^ 53 ->
  Z.of_nat (length r1) + 1 = a -> Z.of_nat (length r2) + 1 = b ->
  Z.of_nat (length r3) + 1 = c ->
  IO.historySaved f1 = true -> IO.historySaved f2 = true ->
  IO.historySaved f3 = true -> IO.progressSaved f3 = true ->
  IO.progressSavedAgain f3 = true ->
  Z.abs (progressCount s (dateKeyFromISO tz (IO.today f3)) + 1) <= 2 ^ 53 ->
  exists s',
    startCycle now0 s
      ≫= IO.ticks tz (r1 ++ [f1] ++ r2 ++ [f2] ++ r3 ++ [f3]) = Some s'
    /\ sessionCycles s' = 1
    /\ historyData s'
       = historyData s
         ++ [ Entry.mk (IO.nowISO f1) "Inhale" a
                       ("Inhale" +:+ " (" +:+ JS.toString a +:+ "s)");
              Entry.mk (IO.nowISO f2) "Hold" b
                       ("Hold" +:+ " (" +:+ JS.toString b +:+ "s)");
              Entry.mk (IO.nowISO f3) "Exhale" c
                       ("Exhale" +:+ " (" +:+ JS.toString c +:+ "s)") ]
    /\ (forall d,
          progressCount s' d
          = progressCount s d
            + (if dateKeyFromISO tz (IO.today f3) =? d then 1 else 0))
    /\ cycleIndex s' = 0 /\ timeLeft s' = a.
Proof.
  intros Hr Hact Ha Hb Hc Pa Pb Pc L1 L2 L3 W1 W2 W3 W4 W5 Hcount.
  replace (r1 ++ [f1] ++ r2 ++ [f2] ++ r3 ++ [f3])
    with ((r1 ++ [f1]) ++ (r2 ++ [f2]) ++ (r3 ++ [f3]))
    by (now rewrite <- !app_assoc).
  remember (r1 ++ [f1]) as l1 eqn:E1.
  remember (r2 ++ [f2]) as l2 eqn:E2.
  remember (r3 ++ [f3]) as l3 eqn:E3.
  unfold startCycle, setupCycleFromInputs. rewrite Hr, Ha, Hb, Hc.
  rewrite !orElse_max_pos by lia.
  unfold startPhase, progressCount in *. open_state s. subst run act.
  simpl.
  rewrite IO_ticks_app. subst l1.
  rewrite (IO_ticks_phase tz r1 f1 (Phase.mk "Inhale" a));
    [|reflexivity..|simpl; lia|simpl; lia].
  unfold IO.completePhase at 1, IO.addHistoryPhase, IO.saveHistoryToStorage,
    IO.setItem, startPhase, jsRem, counted.
  simpl. rewrite W1. simpl.
  change ((0 + 1) `rem` Z.of_nat 3) with 1.
  rewrite IO_ticks_app. subst l2.
  rewrite (IO_ticks_phase tz r2 f2 (Phase.mk "Hold" b));
    [|reflexivity..|simpl; lia|simpl; lia].
  unfold IO.completePhase at 1, IO.addHistoryPhase, IO.saveHistoryToStorage,
    IO.setItem, startPhase, jsRem, counted.
  simpl. rewrite W2. simpl.
  change ((1 + 1) `rem` Z.of_nat 3) with 2. subst l3.
  rewrite (IO_ticks_phase tz r3 f3 (Phase.mk "Exhale" c));
    [|reflexivity..|simpl; lia|simpl; lia].
  unfold IO.completePhase, IO.addHistoryPhase, IO.addProgressForToday,
    IO.saveHistoryToStorage, IO.saveProgressToStorage, IO.setItem,
    startPhase, jsRem, counted.
  simpl. rewrite W3. simpl. rewrite W4, W5. simpl.
  change ((2 + 1) `rem` Z.of_nat 3) with 0.
  eexists. split; [reflexivity|]. simpl.
  split; [reflexivity|].
  split; [now rewrite <- !app_assoc|].
  split; [|split; reflexivity].
  intros d. rewrite toDouble_small by exact Hcount.
  destruct (Z.eqb_spec (dateKeyFromISO tz (IO.today f3)) d) as [->|Hne].
  - rewrite !orElse_zero, lookup_insert_eq. simpl. lia.
  - rewrite lookup_insert_ne by exact Hne. lia.
Qed.

End FullCycleIO.

(** A firing at instant [t] whose writes all succeed. *)
Definition firingAt (t : Z) : IO.Firing := IO.mkFiring t t true true true.

(** [n] such firings, a second apart, after [from]. *)
Definition firingsFrom (from : Z) (n : nat) : list IO.Firing :=
  map firingAt (secondsFrom from n).

Lemma full_cycle_completes_witness :
  exists s',
    startCycle 0 page478
      ≫= IO.ticks IST (firingsFrom 1 3 ++ [firingAt 4000]
                        ++ firingsFrom 5 6 ++ [firingAt 11000]
                        ++ firingsFrom 12 7 ++ [firingAt 19000]) = Some s'
    /\ sessionCycles s' = 1
    /\ historyData s'
       = [ Entry.mk 4000 "Inhale" 4 "Inhale (4s)";
           Entry.mk 11000 "Hold" 7 "Hold (7s)";
           Entry.mk 19000 "Exhale" 8 "Exhale (8s)" ]
    /\ (forall d, progressCount s' d
                  = progressCount page478 d
                    + (if dateKeyFromISO IST 19000 =? d then 1 else 0))
    /\ cycleIndex s' = 0 /\ timeLeft s' = 4.
Proof.
  apply (full_cycle_completes IST 0 4 7 8 (firingsFrom 1 3)
           (firingsFrom 5 6) (firingsFrom 12 7) (firingAt 4000)
           (firingAt 11000) (firingAt 19000) page478);
    try reflexivity; vm_compute; try split; try reflexivity; discriminate.
Defined.

(** The session whose Inhale field reads 1e21. *)
Definition page1e21 : State := init "1000000000000000000000" "7" "8" "Pause".

Definition started1e21 : State := default page1e21 (startCycle 0 page1e21).

(** A firing that leaves the state as it found it does so as often as it
    fires. *)
Lemma IO_ticks_fixed (tz : Z) (f : IO.Firing) (s : State) (n : nat) :
  IO.tick tz f s = Some (IO.Returned s) ->
  IO.ticks tz (repeat f n) s = Some s.
Proof.
  intros Hf. induction n as [|n IH]; [reflexivity|].
  simpl. rewrite Hf. exact IH.
Qed.

(** C3 as stated fails: with an Inhale of 1e21 seconds configured, the
    countdown never moves ([1e21 - 1] is stored as [1e21]), so that after
    a + b + c firings no phase has completed: no cycle, no entry. *)
Lemma full_cycle_counterexample :
  JS.parseInt (inhaleInput page1e21) 0 = Some (10 ^ 21)
  /\ startCycle 0 page1e21 = Some started1e21
  /\ map Phase.duration (cycle started1e21) = [10 ^ 21; 7; 8]
  /\ IO.ticks IST (repeat (firingAt 1000) (Z.to_nat (10 ^ 21 + 7 + 8)))
                  started1e21
     = Some started1e21
  /\ sessionCycles started1e21 = 0
  /\ historyData started1e21 = []
  /\ sessionCycles started1e21 <> 1.
Proof.
  split; [reflexivity|]. split; [reflexivity|]. split; [reflexivity|].
  split; [|split; [reflexivity|split; [reflexivity|discriminate]]].
  apply IO_ticks_fixed. reflexivity.
Qed.

(** ** When a write to storage throws, or midnight passes *)

(** Local midnight opening a day, in the zone of the examples. *)
Definition midnightIST (day : Z) : Z := day * msPerDay - IST.

(** A session of one-second phases started three seconds before the
    midnight that opens day 20001, with Inhale and Hold completed: the
    next firing completes Exhale. *)
Definition beforeExhale : option State :=
  IO.run IST [ IO.Start (midnightIST 20001 - 3001);
               IO.Tick (firingAt (midnightIST 20001 - 2001));
               IO.Tick (firingAt (midnightIST 20001 - 1001)) ]
         (init "1" "1" "1" "Pause").

(** C2 at its failing inputs.  The callback that completes Exhale stamps
    the ledger entry with one reading of the clock and keys the progress
    with a later one: when midnight passes between the two, the entry is
    of one day and the count of the next.  And the write of the history
    comes between the two updates: when it throws, the entry is in the
    ledger and the count is never raised (the interval, cleared before, is
    not armed again). *)
Theorem progress_ledger_diverge :
  let counts (s : State) :=
    (exhalesOn IST 20000 (historyData s), progressCount s 20000,
     exhalesOn IST 20001 (historyData s), progressCount s 20001) in
  (let straddle :=
     IO.mkFiring (midnightIST 20001 - 1) (midnightIST 20001 + 1)
                 true true true in
   counts <$> (beforeExhale ≫= IO.step IST (IO.Tick straddle))
   = Some (1, 0, 0, 1))
  /\
  (let full :=
     IO.mkFiring (midnightIST 20001 - 1) (midnightIST 20001 - 1)
                 false true true in
   counts <$> (beforeExhale ≫= IO.step IST (IO.Tick full))
   = Some (1, 0, 0, 0)
   /\ (fun s => (running s, timerId s, sessionCycles s))
        <$> (beforeExhale ≫= IO.step IST (IO.Tick full))
      = Some (true, None, 0)).
Proof. vm_compute. repeat split. Qed.

(** Reset when the write of the summaries succeeds, or when there is none
    to make: one summary at most, and the page as it was before the first
    start. *)
Lemma reset_finalizes_when_saved (now : Z) (s : State) :
  (sessionActive s = true ->
     exists sm s',
       IO.resetCycle now true s = IO.Returned s'
       /\ sessionSummaries s' = sessionSummaries s ++ [sm]
       /\ Summary.cycles sm = sessionCycles s
       /\ Summary.endISO sm = now
       /\ forall inh hol exh lbl,
            transient s' = transient (init inh hol exh lbl))
  /\ (sessionActive s = false ->
        forall saved, exists s',
          IO.resetCycle now saved s = IO.Returned s'
          /\ sessionSummaries s' = sessionSummaries s
          /\ forall inh hol exh lbl,
               transient s' = transient (init inh hol exh lbl)).
Proof.
  unfold IO.resetCycle, IO.finalizeSessionIfActive, IO.saveSessionsToStorage,
    IO.setItem.
  split; intros Hact; rewrite Hact.
  - open_state s. do 2 eexists. repeat split.
  - intros saved. open_state s. eexists. repeat split.
Qed.

(** Reset when the write of the summaries throws: the summary is in the
    list and the session is marked closed, and nothing else is done. *)
Lemma reset_when_write_throws (now : Z) (s : State) :
  sessionActive s = true ->
  exists sm,
    IO.resetCycle now false s
    = IO.Threw (s |> set_sessionActive false
                  |> set_sessionSummaries (sessionSummaries s ++ [sm]))
    /\ Summary.cycles sm = sessionCycles s.
Proof.
  intros Hact.
  unfold IO.resetCycle, IO.finalizeSessionIfActive, IO.saveSessionsToStorage,
    IO.setItem.
  rewrite Hact. open_state s. eexists. split; reflexivity.
Qed.

(** C6 at its failing input.  Reset during the session started on the
    usual page, the write of the summaries throwing: the summary is
    appended, but the handler ends there; the interval is still armed, the
    engine still runs, the page still shows the phase and the countdown,
    and the next firing goes on counting. *)
Theorem reset_aborted_by_storage :
  let s' := IO.left (IO.resetCycle 9000 false started478) in
  IO.resetCycle 9000 false started478 = IO.Threw s'
  /\ sessionSummaries s' = [Summary.mk 0 9000 0 9 4 7 8]
  /\ transient s'
     = ("Inhale", "04", true, false, false, 0, 4, 0, Some 0,
        Some (Phase.mk "Inhale" 4))
  /\ transient page478
     = ("Press Start", "00", false, false, false, 0, 0, 0, None, None)
  /\ (fun r => (timeLeft (IO.left r), timeDisplay (IO.left r)))
       <$> IO.tick IST (firingAt 10000) s'
     = Some (3, "03").
Proof. vm_compute. repeat split. Qed.

(** C9 at its failing input.  Start, then Reset with the write of the
    summaries throwing: the engine runs with no session active, and stays
    so through the firings and the clicks on Start that follow. *)
Theorem running_without_session :
  let flags (s : State) := (running s, sessionActive s) in
  flags <$> IO.run IST [IO.Start 0; IO.Reset 9000 false] page478
  = Some (true, false)
  /\ flags <$> IO.run IST [ IO.Start 0; IO.Reset 9000 false;
                            IO.Tick (firingAt 10000); IO.Start 11000;
                            IO.PauseToggle; IO.PauseToggle ] page478
     = Some (true, false).
Proof. vm_compute. repeat split. Qed.

(** ** What the page shows, whatever storage does *)

(** What holds of the display in every state the page can be in, aborted
    handlers included: an armed interval belongs to a running engine; a
    paused engine is a running one and the button then reads "Resume"; the
    countdown shown is the countdown held; the phase shown is the phase the
    interval was armed for, which is [cycle[cycleIndex]], one of the three
    phases [setupCycleFromInputs] built. *)
Record Shown (s : State) : Prop := mkShown {
  sh_armed : forall cur, timerId s = Some cur -> running s = true;
  sh_paused : paused s = true -> running s = true /\ pauseBtn s = "Resume";
  sh_time : timeDisplay s = JS.padStart2 (JS.toString (timeLeft s));
  sh_index : 0 <= cycleIndex s < 3;
  sh_phase : forall cur, timerId s = Some cur ->
             phaseDisplay s = Phase.phase cur
             /\ at_index (cycle s) (cycleIndex s) = Some cur
             /\ wfCycle (cycle s)
}.

Section ShownInvariant.
Variable tz : Z.

Lemma Shown_boot (now : Z) (st : Storage) (inh hol exh lbl : string) :
  Shown (loadFromStorage now st (init inh hol exh lbl)).
Proof.
  unfold loadFromStorage. destruct st as [h ss p].
  destruct h, ss, p; constructor; simpl; easy.
Qed.

Lemma startCycle_Shown (now : Z) (s s' : State) :
  Shown s -> startCycle now s = Some s' -> Shown s'.
Proof.
  intros HS Hstep. unfold startCycle in Hstep.
  destruct (running s) eqn:Hr; [now injection Hstep as <-|].
  unfold startPhase, setupCycleFromInputs in Hstep.
  destruct HS as [Harm Hpa Hti Hci Hph]. open_state s. subst run.
  destruct act; cbn in Hstep; injection Hstep as <-; constructor; simpl;
    try easy.
  all: intros ? [= <-]; repeat split; do 3 eexists; reflexivity.
Qed.

Lemma tick_Shown (f : IO.Firing) (s : State) (r : IO.Result) :
  Shown s -> IO.tick tz f s = Some r -> Shown (IO.left r).
Proof.
  intros HS Hstep. unfold IO.tick in Hstep.
  destruct (timerId s) as [cur|] eqn:Hcur;
    [|now injection Hstep as <-].
  destruct (paused s) eqn:Hp; [now injection Hstep as <-|].
  destruct HS as [Harm Hpa Hti Hci Hph].
  specialize (Harm cur Hcur). specialize (Hph cur Hcur).
  destruct Hph as (Hpd & Hat0 & Hwf).
  assert (Hrem : 0 <= Z.rem (cycleIndex s + 1) 3 < 3)
    by (apply Z.rem_bound_pos; lia).
  pose proof Hwf as (a & b & e & Hcy).
  cbv zeta in Hstep.
  unfold IO.completePhase, IO.addHistoryPhase, IO.addProgressForToday,
    IO.saveHistoryToStorage, IO.saveProgressToStorage, IO.setItem,
    startPhase, jsRem in Hstep.
  open_state s. subst tid pau run.
  set (x := JS.toDouble (tl - 1)) in *. clearbody x.
  destruct (x <=? 0).
  2: { injection Hstep as <-. constructor; simpl; try easy.
       intros ? [= <-]. now repeat split. }
  destruct (IO.historySaved f);
    [|injection Hstep as <-; constructor; simpl; easy].
  subst cy. simpl in Hstep. change (Z.of_nat 3) with 3 in Hstep.
  simpl in Hstep.
  destruct (String.eqb (JS.toLowerCase (Phase.phase cur)) "exhale").
  - simpl in Hstep.
    destruct (IO.progressSaved f);
      [|injection Hstep as <-; constructor; simpl; easy].
    destruct (IO.progressSavedAgain f);
      [|injection Hstep as <-; constructor; simpl; easy].
    simpl in Hstep.
    destruct (at_index _ (_ `rem` _)) as [nxt|] eqn:Hat;
      [|simpl in Hstep; discriminate].
    simpl in Hstep. injection Hstep as <-. constructor; simpl; try easy.
    intros ? [= <-]. repeat split; [exact Hat|]. now exists a, b, e.
  - destruct (at_index _ (_ `rem` _)) as [nxt|] eqn:Hat;
      [|simpl in Hstep; discriminate].
    simpl in Hstep. injection Hstep as <-. constructor; simpl; try easy.
    intros ? [= <-]. repeat split; [exact Hat|]. now exists a, b, e.
Qed.

Lemma step_Shown (a : IO.Action) (s s' : State) :
  Shown s -> IO.step tz a s = Some s' -> Shown s'.
Proof.
  intros HS Hstep.
  destruct a as [now|f| |now saved|confirmed h ss p|inh0 hol0 exh0];
    simpl in Hstep.
  - eapply startCycle_Shown; eassumption.
  - destruct (IO.tick tz f s) as [r|] eqn:Ht; [|discriminate].
    injection Hstep as <-. eapply tick_Shown; eassumption.
  - injection Hstep as <-. unfold pauseOrResume.
    destruct (running s) eqn:Hr; [|exact HS]. simpl.
    destruct HS as [Harm Hpa Hti Hci Hph].
    open_state s. subst run. destruct pau; constructor; simpl; easy.
  - injection Hstep as <-.
    unfold IO.resetCycle, IO.finalizeSessionIfActive,
      IO.saveSessionsToStorage, IO.setItem.
    destruct HS as [Harm Hpa Hti Hci Hph].
    destruct (sessionActive s), saved; open_state s;
      constructor; simpl; easy.
  - injection Hstep as <-.
    unfold IO.clearAllHistory, IO.saveHistoryToStorage,
      IO.saveSessionsToStorage, IO.saveProgressToStorage, IO.setItem.
    destruct HS as [Harm Hpa Hti Hci Hph].
    destruct confirmed, h, ss, p; open_state s; constructor; simpl; easy.
  - injection Hstep as <-. destruct HS as [Harm Hpa Hti Hci Hph].
    open_state s. now constructor.
Qed.

(** No handler reads a property of [undefined] in such a state. *)
Lemma step_defined (a : IO.Action) (s : State) :
  Shown s -> exists s', IO.step tz a s = Some s'.
Proof.
  intros [Harm Hpa Hti Hci Hph].
  destruct a as [now|f| |now saved|confirmed h ss p|inh0 hol0 exh0];
    simpl; eauto.
  - unfold startCycle. destruct (running s); [eauto|].
    unfold startPhase, setupCycleFromInputs. clear.
    open_state s. destruct act; cbn; eauto.
  - unfold IO.tick. destruct (timerId s) as [cur|] eqn:Hcur; [|simpl; eauto].
    destruct (paused s); [simpl; eauto|]. cbv zeta.
    destruct (_ <=? _); [|simpl; eauto].
    destruct (Hph cur eq_refl) as (_ & _ & Hwf).
    pose proof Hwf as (x & y & z & Hcy).
    assert (Hb : 0 <= Z.rem (cycleIndex s + 1) 3 < 3)
      by (apply Z.rem_bound_pos; lia).
    destruct (wfCycle_at_index _ _ Hwf Hb) as [nxt Hnxt].
    clear Hph Hcur Harm Hpa Hti.
    unfold IO.completePhase, IO.addHistoryPhase, IO.addProgressForToday,
      IO.saveHistoryToStorage, IO.saveProgressToStorage, IO.setItem,
      startPhase, jsRem.
    open_state s. subst cy. change (Z.of_nat 3) with 3 in *.
    destruct (IO.historySaved f); simpl; [|eauto].
    change (Z.of_nat 3) with 3. simpl.
    destruct (String.eqb _ _); simpl;
      [destruct (IO.progressSaved f); simpl; [|eauto];
       destruct (IO.progressSavedAgain f); simpl; [|eauto]|];
      rewrite Hnxt; simpl; eauto.
Qed.

Lemma run_defined (acts : list IO.Action) (s : State) :
  Shown s -> exists s', IO.run tz acts s = Some s' /\ Shown s'.
Proof.
  revert s. induction acts as [|a rest IH]; intros s HS.
  - exists s. now split.
  - destruct (step_defined a s HS) as [s1 Hs1]. simpl. rewrite Hs1. simpl.
    apply IH. eapply step_Shown; eassumption.
Qed.

Lemma reachable_Shown (s : State) : IO.reachable tz s -> Shown s.
Proof.
  induction 1 as [now st inh hol exh lbl | a s s' _ IH Hstep].
  - apply Shown_boot.
  - eapply step_Shown; eassumption.
Qed.

End ShownInvariant.

(** A storage that holds nothing. *)
Definition emptyStorage : Storage := mkStorage Absent Absent Absent.

(** X2.  In every state the page can be in (from a boot on a storage each
    key of which is absent, unreadable or of the shape the script writes),
    whatever the writes to storage did, an interval is armed only while
    the engine runs (none fires on an idle engine), and a paused engine is
    a running one whose button reads "Resume". *)
Theorem timer_armed_runs (tz : Z) (s : State) :
  IO.reachable tz s ->
  (forall cur, timerId s = Some cur -> running s = true)
  /\ (running s = false -> timerId s = None)
  /\ (paused s = true -> running s = true /\ pauseBtn s = "Resume").
Proof.
  intros Hr. apply reachable_Shown in Hr. split; [|split].
  - apply (sh_armed s Hr).
  - intros Hrun. destruct (timerId s) as [cur|] eqn:Hcur; [|reflexivity].
    rewrite (sh_armed s Hr cur Hcur) in Hrun. discriminate.
  - apply (sh_paused s Hr).
Qed.

Lemma timer_armed_runs_witness :
  (forall cur, timerId (pauseOrResume started478) = Some cur ->
               running (pauseOrResume started478) = true)
  /\ (running (pauseOrResume started478) = false ->
      timerId (pauseOrResume started478) = None)
  /\ (paused (pauseOrResume started478) = true ->
      running (pauseOrResume started478) = true
      /\ pauseBtn (pauseOrResume started478) = "Resume").
Proof.
  apply (timer_armed_runs IST (pauseOrResume started478)).
  apply (IO.reach_step IST IO.PauseToggle started478); [|reflexivity].
  apply (IO.reach_step IST (IO.Start 0) page478 started478);
    [|reflexivity].
  exact (IO.reach_boot IST 0 emptyStorage "4" "7" "8" "Pause").
Defined.

(** X4.  In every state the page can be in (from a boot on a storage each
    key of which is absent, unreadable or of the shape the script writes),
    whatever the writes to storage did, the countdown shown is
    [String(timeLeft)] padded to two characters, and while an interval is
    armed the phase shown is the phase it was armed for, which is
    [cycle[cycleIndex]]. *)
Theorem display_shows_state (tz : Z) (s : State) :
  IO.reachable tz s ->
  timeDisplay s = JS.padStart2 (JS.toString (timeLeft s))
  /\ forall cur, timerId s = Some cur ->
                 phaseDisplay s = Phase.phase cur
                 /\ at_index (cycle s) (cycleIndex s) = Some cur.
Proof.
  intros Hr. apply reachable_Shown in Hr. split.
  - apply (sh_time s Hr).
  - intros cur Hcur. destruct (sh_phase s Hr cur Hcur) as (H1 & H2 & _).
    now split.
Qed.

Lemma display_shows_state_witness :
  timeDisplay started478 = JS.padStart2 (JS.toString (timeLeft started478))
  /\ forall cur, timerId started478 = Some cur ->
                 phaseDisplay started478 = Phase.phase cur
                 /\ at_index (cycle started478) (cycleIndex started478)
                    = Some cur.
Proof.
  apply (display_shows_state IST started478).
  apply (IO.reach_step IST (IO.Start 0) page478 started478);
    [|reflexivity].
  exact (IO.reach_boot IST 0 emptyStorage "4" "7" "8" "Pause").
Defined.

(** ** The times of a summary *)

Definition isReset (a : IO.Action) : bool :=
  match a with IO.Reset _ _ => true | _ => false end.

Section SummaryTimes.
Variable tz : Z.

(** A firing leaves the flags and the start time of the session alone,
    however it ends. *)
Lemma tick_session (f : IO.Firing) (s : State) (r : IO.Result) :
  IO.tick tz f s = Some r ->
  running (IO.left r) = running s
  /\ sessionActive (IO.left r) = sessionActive s
  /\ sessionStartTime (IO.left r) = sessionStartTime s.
Proof.
  intros Hstep. unfold IO.tick in Hstep.
  destruct (timerId s) as [cur|]; [|now injection Hstep as <-].
  destruct (paused s); [now injection Hstep as <-|].
  cbv zeta in Hstep.
  unfold IO.completePhase, IO.addHistoryPhase, IO.addProgressForToday,
    IO.saveHistoryToStorage, IO.saveProgressToStorage, IO.setItem,
    startPhase, jsRem in Hstep.
  open_state s.
  set (x := JS.toDouble (tl - 1)) in *. clearbody x.
  destruct (x <=? 0); [|now injection Hstep as <-].
  destruct (IO.historySaved f); [|now injection Hstep as <-].
  simpl in Hstep.
  destruct (Z.of_nat (length cy) =? 0); [discriminate|]. simpl in Hstep.
  destruct (String.eqb (JS.toLowerCase (Phase.phase cur)) "exhale").
  - simpl in Hstep.
    destruct (IO.progressSaved f); [|now injection Hstep as <-].
    destruct (IO.progressSavedAgain f); [|now injection Hstep as <-].
    simpl in Hstep.
    destruct (at_index cy (_ `rem` _)) as [nxt|];
      [|simpl in Hstep; discriminate].
    simpl in Hstep. now injection Hstep as <-.
  - destruct (at_index cy (_ `rem` _)) as [nxt|];
      [|simpl in Hstep; discriminate].
    simpl in Hstep. now injection Hstep as <-.
Qed.

(** What the actions other than Reset keep of a session under way. *)
Lemma step_keeps_session (t0 : Z) (a : IO.Action) (s s' : State) :
  isReset a = false -> IO.step tz a s = Some s' ->
  running s = true /\ sessionActive s = true
  /\ sessionStartTime s = Some t0 ->
  running s' = true /\ sessionActive s' = true
  /\ sessionStartTime s' = Some t0.
Proof.
  intros Ha Hstep (Hrun & Hact & Hst).
  destruct a as [now|f| |now saved|confirmed h ss p|inh0 hol0 exh0];
    simpl in Hstep; try discriminate.
  - unfold startCycle in Hstep. rewrite Hrun in Hstep.
    now injection Hstep as <-.
  - destruct (IO.tick tz f s) as [r|] eqn:Ht; [|discriminate].
    injection Hstep as <-.
    destruct (tick_session f s r Ht) as (-> & -> & ->). now repeat split.
  - injection Hstep as <-. unfold pauseOrResume. rewrite Hrun.
    open_state s. now repeat split.
  - injection Hstep as <-.
    unfold IO.clearAllHistory, IO.saveHistoryToStorage,
      IO.saveSessionsToStorage, IO.saveProgressToStorage, IO.setItem.
    destruct confirmed, h, ss, p; open_state s; now repeat split.
  - injection Hstep as <-. open_state s. now repeat split.
Qed.

Lemma run_keeps_session (t0 : Z) (acts : list IO.Action) (s s' : State) :
  forallb (fun a => negb (isReset a)) acts = true ->
  IO.run tz acts s = Some s' ->
  running s = true /\ sessionActive s = true
  /\ sessionStartTime s = Some t0 ->
  running s' = true /\ sessionActive s' = true
  /\ sessionStartTime s' = Some t0.
Proof.
  revert s. induction acts as [|a rest IH]; intros s Hall Hrun Hs.
  - simpl in Hrun. now injection Hrun as <-.
  - simpl in Hall, Hrun. apply andb_prop in Hall as [Ha Hrest].
    destruct (IO.step tz a s) as [s1|] eqn:Hs1; [|discriminate].
    simpl in Hrun. apply (IH s1 Hrest Hrun).
    apply (step_keeps_session t0 a s s1);
      [now destruct (isReset a) | exact Hs1 | exact Hs].
Qed.

(** X5.  A session opened by a click on Start at [t0] on an idle page,
    whatever happens then save a reset (firings, pauses, further clicks on
    Start, edits, clears, writes that throw), is recorded by the reset at
    [now] with its own times: the summary appended starts at [t0], ends at
    [now], carries the cycles counted, and its duration in seconds is
    within half a second of the time between the two.  This is so even
    when the write of the summaries then throws. *)
Theorem summary_times (t0 now : Z) (saved : bool) (acts : list IO.Action)
    (s0 s1 s : State) :
  running s0 = false -> sessionActive s0 = false ->
  startCycle t0 s0 = Some s1 ->
  forallb (fun a => negb (isReset a)) acts = true ->
  IO.run tz acts s1 = Some s ->
  exists sm,
    sessionSummaries (IO.left (IO.resetCycle now saved s))
      = sessionSummaries s ++ [sm]
    /\ Summary.startISO sm = t0 /\ Summary.endISO sm = now
    /\ Summary.cycles sm = sessionCycles s
    /\ -500 <= (now - t0) - 1000 * Summary.durationSec sm < 500.
Proof.
  intros Hr Hact Hstart Hall Hrun.
  assert (Hs1 : running s1 = true /\ sessionActive s1 = true
                /\ sessionStartTime s1 = Some t0).
  { unfold startCycle, startPhase, setupCycleFromInputs in Hstart.
    rewrite Hr in Hstart. open_state s0. subst run act.
    cbn in Hstart. injection Hstart as <-. now repeat split. }
  destruct (run_keeps_session t0 acts s1 s Hall Hrun Hs1)
    as (_ & Hact' & Hst').
  unfold IO.resetCycle, IO.finalizeSessionIfActive,
    IO.saveSessionsToStorage, IO.setItem.
  rewrite Hact'. open_state s. subst sst.
  destruct saved; simpl; eexists; (do 4 (split; [reflexivity|]));
    simpl; unfold JS.roundDiv1000;
    pose proof (Z.mod_pos_bound (now - t0 + 500) 1000 ltac:(lia));
    pose proof (Z.div_mod (now - t0 + 500) 1000 ltac:(lia)); lia.
Qed.

End SummaryTimes.

Lemma summary_times_witness :
  exists sm,
    sessionSummaries (IO.left (IO.resetCycle 61499 true
                                 (pauseOrResume started478)))
      = sessionSummaries (pauseOrResume started478) ++ [sm]
    /\ Summary.startISO sm = 0 /\ Summary.endISO sm = 61499
    /\ Summary.cycles sm = sessionCycles (pauseOrResume started478)
    /\ -500 <= (61499 - 0) - 1000 * Summary.durationSec sm < 500.
Proof.
  apply (summary_times IST 0 61499 true [IO.PauseToggle] page478 started478
           (pauseOrResume started478)); reflexivity.
Defined.

(** X9.  After a reset that returned, a second reset, at any later
    instant and whatever storage then does, returns and changes nothing:
    the session was finalized by the first, no further summary is
    appended and nothing is written. *)
Theorem reset_twice (now1 now2 : Z) (saved : bool) (s s1 : State) :
  IO.resetCycle now1 true s = IO.Returned s1 ->
  IO.resetCycle now2 saved s1 = IO.Returned s1.
Proof.
  unfold IO.resetCycle, IO.finalizeSessionIfActive,
    IO.saveSessionsToStorage, IO.setItem.
  destruct (sessionActive s); open_state s; intros [= <-]; reflexivity.
Qed.

Lemma reset_twice_witness :
  IO.resetCycle 9000 false (IO.left (IO.resetCycle 5000 true started478))
  = IO.Returned (IO.left (IO.resetCycle 5000 true started478)).
Proof.
  apply (reset_twice 5000 9000 false started478). reflexivity.
Defined.

(** ** A session of any length *)

(** Every write of the firing succeeds. *)
Definition allSaved (f : IO.Firing) : bool :=
  IO.historySaved f && IO.progressSaved f && IO.progressSavedAgain f.

Section AnyLengthIO.
Variable tz : Z.
Variables a b c h0 : Z.
Hypothesis a_pos : 0 < a <= 2 ^ 53.
Hypothesis b_pos : 0 < b <= 2 ^ 53.
Hypothesis c_pos : 0 < c <= 2 ^ 53.

Lemma IO_tick_Elapsed (f : IO.Firing) (n : Z) (s : State) :
  allSaved f = true -> n < 2 ^ 53 ->
  Elapsed a b c h0 n s ->
  exists s', IO.tick tz f s = Some (IO.Returned s')
             /\ Elapsed a b c h0 (n + 1) s'.
Proof.
  intros Hsaved Hn [Hcy Hci Htm Hp Hleft Hcnt Htime Hled].
  unfold allSaved in Hsaved.
  apply andb_prop in Hsaved as [Hsaved W3].
  apply andb_prop in Hsaved as [W1 W2].
  rewrite (IO_tick_running tz f _ s Htm Hp). cbv zeta.
  assert (Hdur : durOf a b c (cycleIndex s) <= 2 ^ 53).
  { unfold durOf. destruct (cycleIndex s =? 0); [lia|].
    destruct (cycleIndex s =? 1); lia. }
  rewrite toDouble_small by lia.
  assert (Hsc : sessionCycles s + 1 <= 2 ^ 53).
  { assert (0 <= offsetOf a b (cycleIndex s)).
    { unfold offsetOf. destruct (cycleIndex s =? 0); [lia|].
      destruct (cycleIndex s =? 1); lia. }
    nia. }
  destruct (Z.leb_spec (timeLeft s - 1) 0) as [Hle|Hgt].
  - unfold IO.completePhase, IO.addHistoryPhase, IO.addProgressForToday,
      IO.saveHistoryToStorage, IO.saveProgressToStorage, IO.setItem,
      startPhase, jsRem, counted.
    rewrite W1, W2, W3.
    open_state s. subst cy tid pau.
    assert (ci = 0 \/ ci = 1 \/ ci = 2) as [-> | [-> | ->]] by lia;
      simpl in *; rewrite ?(toDouble_small (sc + 1)) by lia;
      eexists; (split; [reflexivity|]);
      constructor; simpl; rewrite ?length_app; simpl;
      repeat match goal with
             | |- context [Z.rem ?x (Z.of_nat 3)] =>
                 let v := eval vm_compute in (Z.rem x (Z.of_nat 3)) in
                 change (Z.rem x (Z.of_nat 3)) with v
             end;
      unfold durOf, offsetOf in *; simpl in *;
      try reflexivity; lia.
  - eexists. split; [reflexivity|]. unfold counted.
    open_state s. subst cy tid pau.
    constructor; simpl; try reflexivity; try assumption; lia.
Qed.

Lemma IO_ticks_Elapsed (fs : list IO.Firing) (n : Z) (s : State) :
  forallb allSaved fs = true -> n + Z.of_nat (length fs) <= 2 ^ 53 ->
  Elapsed a b c h0 n s ->
  exists s',
    IO.ticks tz fs s = Some s'
    /\ Elapsed a b c h0 (n + Z.of_nat (length fs)) s'.
Proof.
  revert n s. induction fs as [|f rest IH]; intros n s Hall Hn HE.
  - exists s. split; [reflexivity|]. simpl. now rewrite Z.add_0_r.
  - simpl in Hall. apply andb_prop in Hall as [Hf Hrest].
    simpl length in Hn.
    destruct (IO_tick_Elapsed f n s Hf ltac:(lia) HE) as (s1 & Hs1 & HE1).
    destruct (IH (n + 1) s1 Hrest ltac:(lia) HE1) as (s2 & Hs2 & HE2).
    exists s2. simpl IO.ticks. rewrite Hs1. split; [exact Hs2|].
    replace (n + Z.of_nat (length (f :: rest)))
      with (n + 1 + Z.of_nat (length rest)) by (simpl length; lia).
    exact HE2.
Qed.

End AnyLengthIO.

(** X6.  With positive durations a, b, c of at most 2^53 seconds
    configured, a session started from the idle page and given n firings
    (none paused, n at most 2^53), every write of which succeeds, has
    completed n / (a+b+c) cycles, stands at the phase and the seconds left
    that n mod (a+b+c) seconds into a cycle give, and has logged three
    entries for each cycle completed and one for each phase completed in
    the cycle under way. *)
Theorem session_after_n_firings (tz now0 a b c : Z) (fs : list IO.Firing)
    (s : State) :
  running s = false -> sessionActive s = false ->
  JS.parseInt (inhaleInput s) 0 = Some a ->
  JS.parseInt (holdInput s) 0 = Some b ->
  JS.parseInt (exhaleInput s) 0 = Some c ->
  0 < a <= 2 ^ 53 -> 0 < b <= 2 ^ 53 -> 0 < c <= 2 ^ 53 ->
  forallb allSaved fs = true -> Z.of_nat (length fs) <= 2 ^ 53 ->
  exists s',
    startCycle now0 s ≫= IO.ticks tz fs = Some s'
    /\ sessionCycles s' = Z.of_nat (length fs) / (a + b + c)
    /\ (cycleIndex s', timeLeft s')
       = phaseAt a b c (Z.of_nat (length fs) mod (a + b + c))
    /\ Z.of_nat (length (historyData s'))
       = Z.of_nat (length (historyData s))
         + 3 * sessionCycles s' + cycleIndex s'.
Proof.
  intros Hr Hact Ha Hb Hc Pa Pb Pc Hall Hn.
  assert (Hs : exists s1,
             startCycle now0 s = Some s1
             /\ Elapsed a b c (Z.of_nat (length (historyData s))) 0 s1).
  { unfold startCycle, setupCycleFromInputs. rewrite Hr, Ha, Hb, Hc.
    rewrite !orElse_max_pos by lia.
    unfold startPhase. open_state s. subst run act. simpl.
    eexists. split; [reflexivity|].
    constructor; simpl; try reflexivity; try lia;
      unfold durOf, offsetOf; simpl; lia. }
  destruct Hs as (s1 & Hs1 & HE1). rewrite Hs1. simpl.
  destruct (IO_ticks_Elapsed tz a b c _ Pa Pb Pc fs 0 s1 Hall
              ltac:(lia) HE1) as (s' & Hs' & HE').
  exists s'. split; [exact Hs'|]. simpl in HE'.
  destruct (Elapsed_closed_form a b c _ ltac:(lia) ltac:(lia) ltac:(lia)
              _ s' HE') as [Hq Hpos].
  split; [exact Hq|]. split; [exact Hpos|]. apply (el_ledger _ _ _ _ _ _ HE').
Qed.

Lemma session_after_n_firings_witness :
  exists s',
    startCycle 0 page478 ≫= IO.ticks IST (firingsFrom 1 45) = Some s'
    /\ sessionCycles s' = 45 / (4 + 7 + 8)
    /\ (cycleIndex s', timeLeft s') = phaseAt 4 7 8 (45 mod (4 + 7 + 8))
    /\ Z.of_nat (length (historyData s'))
       = 0 + 3 * sessionCycles s' + cycleIndex s'.
Proof.
  apply (session_after_n_firings IST 0 4 7 8 (firingsFrom 1 45) page478);
    try reflexivity; vm_compute; try split; try reflexivity; discriminate.
Defined.

(** ** The flags and the ledger when no write fails *)

(** An action none of whose writes throws where it matters to the flags: a
    reset whose write of the summaries succeeds. *)
Definition resetSaved (a : IO.Action) : bool :=
  match a with IO.Reset _ saved => saved | _ => true end.

(** An action under which the ledger and the progress stay in step: a
    firing must have its write of the history succeed and read the clock
    twice on the same local day. *)
Definition inStep (tz : Z) (a : IO.Action) : bool :=
  match a with
  | IO.Tick f =>
      IO.historySaved f
      && (dateKeyFromISO tz (IO.nowISO f) =? dateKeyFromISO tz (IO.today f))
  | _ => true
  end.

(** The ledger after at most [n] actions from an empty one. *)
Record Ledger (tz n : Z) (s : State) : Prop := mkLedger {
  led_timer : forall cur, timerId s = Some cur ->
                wfCycle (cycle s) /\ In cur (cycle s);
  led_length : Z.of_nat (length (historyData s)) <= n;
  led_counts : forall d, progressCount s d = exhalesOn tz d (historyData s)
}.

Section WhenSaved.
Variable tz : Z.

Lemma step_flags (a : IO.Action) (s s' : State) :
  resetSaved a = true -> IO.step tz a s = Some s' ->
  running s = sessionActive s -> running s' = sessionActive s'.
Proof.
  intros Ha Hstep Hf.
  destruct a as [now|f| |now saved|confirmed h ss p|inh0 hol0 exh0];
    simpl in Hstep, Ha.
  - unfold startCycle in Hstep. destruct (running s) eqn:Hr;
      [injection Hstep as <-; congruence|].
    unfold startPhase, setupCycleFromInputs in Hstep.
    open_state s. subst run act. cbn in Hstep. now injection Hstep as <-.
  - destruct (IO.tick tz f s) as [r|] eqn:Ht; [|discriminate].
    injection Hstep as <-.
    destruct (tick_session tz f s r Ht) as (-> & -> & _). exact Hf.
  - injection Hstep as <-. unfold pauseOrResume.
    destruct (running s) eqn:Hr; simpl; [|rewrite Hr; exact Hf].
    open_state s. congruence.
  - injection Hstep as <-. subst saved.
    unfold IO.resetCycle, IO.finalizeSessionIfActive,
      IO.saveSessionsToStorage, IO.setItem.
    destruct (sessionActive s); open_state s; reflexivity.
  - injection Hstep as <-.
    unfold IO.clearAllHistory, IO.saveHistoryToStorage,
      IO.saveSessionsToStorage, IO.saveProgressToStorage, IO.setItem.
    destruct confirmed, h, ss, p; open_state s; exact Hf.
  - injection Hstep as <-. open_state s. exact Hf.
Qed.

Lemma run_flags (acts : list IO.Action) (s s' : State) :
  forallb resetSaved acts = true -> IO.run tz acts s = Some s' ->
  running s = sessionActive s -> running s' = sessionActive s'.
Proof.
  revert s. induction acts as [|a rest IH]; intros s Hall Hrun Hf.
  - simpl in Hrun. now injection Hrun as <-.
  - simpl in Hall, Hrun. apply andb_prop in Hall as [Ha Hrest].
    destruct (IO.step tz a s) as [s1|] eqn:Hs1; [|discriminate].
    simpl in Hrun. apply (IH s1 Hrest Hrun).
    exact (step_flags a s s1 Ha Hs1 Hf).
Qed.

Lemma exhalesOn_bounds (d : Z) (hist : list Entry.t) :
  0 <= exhalesOn tz d hist <= Z.of_nat (length hist).
Proof.
  unfold exhalesOn. pose proof (List.filter_length_le (isExhaleOn tz d) hist).
  lia.
Qed.

Lemma Ledger_countdown (n x : Z) (y : string) (s : State) :
  Ledger tz n s -> Ledger tz n (set_timeDisplay y (set_timeLeft x s)).
Proof.
  intros [Ht Hn Hl]. unfold progressCount in Hl. open_state s.
  constructor; unfold progressCount; simpl; assumption.
Qed.

Lemma completePhase_Ledger (n : Z) (f : IO.Firing) (cur : Phase.t)
    (s : State) (r : IO.Result) :
  inStep tz (IO.Tick f) = true -> n + 1 <= 2 ^ 53 ->
  Ledger tz n s -> timerId s = Some cur ->
  IO.completePhase tz f cur s = Some r -> Ledger tz (n + 1) (IO.left r).
Proof.
  intros Hin Hn [Ht Hlen Hl] Hcur Hstep. simpl in Hin.
  apply andb_prop in Hin as [W1 Hday]. apply Z.eqb_eq in Hday.
  destruct (Ht cur Hcur) as [(a & b & e & Hcy) Hcin].
  pose proof (exhalesOn_bounds (dateKeyFromISO tz (IO.today f))
                (historyData s)) as Hb.
  rewrite <- Hl in Hb.
  unfold progressCount in Hl, Hb. clear Ht.
  unfold IO.completePhase, IO.addHistoryPhase, IO.addProgressForToday,
    IO.saveHistoryToStorage, IO.saveProgressToStorage, IO.setItem,
    startPhase, jsRem in Hstep.
  rewrite W1 in Hstep.
  open_state s. subst cy tid.
  destruct Hcin as [<- | [<- | [<- | []]]]; simpl in Hstep;
    change (Z.of_nat 3) with 3 in Hstep.
  - destruct (at_index _ _) as [nxt|] eqn:Hnxt;
      [|simpl in Hstep; discriminate].
    simpl in Hstep. injection Hstep as <-. apply at_index_In in Hnxt.
    constructor; simpl.
    + intros ? [= <-]. split; [exists a, b, e; reflexivity | exact Hnxt].
    + rewrite length_app. simpl. lia.
    + intros d. unfold progressCount. simpl. rewrite exhalesOn_snoc, Hl.
      unfold isExhaleOn. simpl. now rewrite Z.add_0_r.
  - destruct (at_index _ _) as [nxt|] eqn:Hnxt;
      [|simpl in Hstep; discriminate].
    simpl in Hstep. injection Hstep as <-. apply at_index_In in Hnxt.
    constructor; simpl.
    + intros ? [= <-]. split; [exists a, b, e; reflexivity | exact Hnxt].
    + rewrite length_app. simpl. lia.
    + intros d. unfold progressCount. simpl. rewrite exhalesOn_snoc, Hl.
      unfold isExhaleOn. simpl. now rewrite Z.add_0_r.
  - rewrite (toDouble_small
               (JS.orElse (prog !! dateKeyFromISO tz (IO.today f)) 0 + 1))
      in Hstep by lia.
    assert (Hcount : forall d,
              JS.orElse
                (<[dateKeyFromISO tz (IO.today f) :=
                     JS.orElse (prog !! dateKeyFromISO tz (IO.today f)) 0 + 1]>
                   prog !! d) 0
              = exhalesOn tz d
                  (hist ++ [Entry.mk (IO.nowISO f) "Exhale" e
                              ("Exhale" +:+ " (" +:+ JS.toString e +:+ "s)")])).
    { intros d. rewrite exhalesOn_snoc, <- !Hl, !orElse_zero.
      unfold isExhaleOn. simpl. rewrite Hday.
      destruct (Z.eqb_spec (dateKeyFromISO tz (IO.today f)) d) as [->|Hne].
      - now rewrite lookup_insert_eq.
      - rewrite lookup_insert_ne by assumption. now rewrite Z.add_0_r. }
    destruct (IO.progressSaved f);
      [|injection Hstep as <-; constructor; simpl;
        [easy | rewrite length_app; simpl; lia | exact Hcount]].
    simpl in Hstep.
    destruct (IO.progressSavedAgain f);
      [|injection Hstep as <-; constructor; simpl;
        [easy | rewrite length_app; simpl; lia | exact Hcount]].
    simpl in Hstep.
    destruct (at_index _ _) as [nxt|] eqn:Hnxt;
      [|simpl in Hstep; discriminate].
    simpl in Hstep. injection Hstep as <-. apply at_index_In in Hnxt.
    constructor; simpl.
    + intros ? [= <-]. split; [exists a, b, e; reflexivity | exact Hnxt].
    + rewrite length_app. simpl. lia.
    + exact Hcount.
Qed.

Lemma Ledger_more (n m : Z) (s : State) :
  n <= m -> Ledger tz n s -> Ledger tz m s.
Proof. intros Hnm [Ht Hn Hl]. constructor; try assumption. lia. Qed.

Lemma step_Ledger (n : Z) (a : IO.Action) (s s' : State) :
  inStep tz a = true -> n + 1 <= 2 ^ 53 ->
  Ledger tz n s -> IO.step tz a s = Some s' -> Ledger tz (n + 1) s'.
Proof.
  intros Ha Hn HL Hstep.
  destruct a as [now|f| |now saved|confirmed h ss p|inh0 hol0 exh0];
    simpl in Hstep.
  - apply (Ledger_more n); [lia|].
    destruct HL as [Ht Hlen Hl]. unfold startCycle in Hstep.
    destruct (running s) eqn:Hr.
    + injection Hstep as <-. now constructor.
    + unfold progressCount in Hl.
      unfold startPhase, setupCycleFromInputs in Hstep.
      open_state s. subst run.
      destruct act; cbn in Hstep; injection Hstep as <-;
        constructor; simpl; try assumption.
      all: intros ? [= <-]; split; [|now left]; do 3 eexists; reflexivity.
  - destruct (IO.tick tz f s) as [r|] eqn:Ht; [|discriminate].
    injection Hstep as <-. unfold IO.tick in Ht.
    destruct (timerId s) as [cur|] eqn:Hcur;
      [|injection Ht as <-; now apply (Ledger_more n); [lia|]].
    destruct (paused s);
      [injection Ht as <-; now apply (Ledger_more n); [lia|]|].
    cbv zeta in Ht.
    match type of Ht with
    | (if _ then IO.completePhase _ _ _ ?s1 else _) = _ =>
        assert (HL1 : Ledger tz n s1) by (now apply Ledger_countdown);
        assert (Hcur1 : timerId s1 = Some cur)
          by (clear - Hcur; open_state s; exact Hcur);
        destruct (_ <=? _);
          [ exact (completePhase_Ledger n f cur s1 r Ha Hn HL1 Hcur1 Ht)
          | injection Ht as <-; now apply (Ledger_more n); [lia|] ]
    end.
  - injection Hstep as <-. apply (Ledger_more n); [lia|].
    destruct HL as [Ht Hlen Hl]. unfold pauseOrResume.
    destruct (running s); simpl; [|now constructor].
    unfold progressCount in Hl. open_state s.
    constructor; unfold progressCount; simpl; assumption.
  - injection Hstep as <-. apply (Ledger_more n); [lia|].
    destruct HL as [Ht Hlen Hl]. unfold progressCount in Hl.
    unfold IO.resetCycle, IO.finalizeSessionIfActive,
      IO.saveSessionsToStorage, IO.setItem.
    destruct (sessionActive s), saved; open_state s;
      constructor; unfold progressCount; simpl; easy.
  - injection Hstep as <-. apply (Ledger_more n); [lia|].
    destruct HL as [Ht Hlen Hl]. unfold progressCount in Hl.
    unfold IO.clearAllHistory, IO.saveHistoryToStorage,
      IO.saveSessionsToStorage, IO.saveProgressToStorage, IO.setItem.
    destruct confirmed, h, ss, p; open_state s;
      constructor; unfold progressCount; simpl;
      first [assumption | reflexivity | lia | easy].
  - injection Hstep as <-. apply (Ledger_more n); [lia|].
    destruct HL as [Ht Hlen Hl]. unfold progressCount in Hl.
    open_state s. constructor; unfold progressCount; simpl; assumption.
Qed.

Lemma run_Ledger (acts : list IO.Action) (n : Z) (s s' : State) :
  forallb (inStep tz) acts = true ->
  n + Z.of_nat (length acts) <= 2 ^ 53 ->
  Ledger tz n s -> IO.run tz acts s = Some s' ->
  Ledger tz (n + Z.of_nat (length acts)) s'.
Proof.
  revert n s. induction acts as [|a rest IH]; intros n s Hall Hn HL Hrun.
  - simpl in Hrun. injection Hrun as <-. simpl. now rewrite Z.add_0_r.
  - simpl in Hall, Hrun. apply andb_prop in Hall as [Ha Hrest].
    simpl length in Hn.
    destruct (IO.step tz a s) as [s1|] eqn:Hs1; [|discriminate].
    simpl in Hrun.
    replace (n + Z.of_nat (length (a :: rest)))
      with (n + 1 + Z.of_nat (length rest)) by (simpl length; lia).
    apply (IH (n + 1) s1 Hrest ltac:(lia)); [|exact Hrun].
    apply (step_Ledger n a s s1 Ha ltac:(lia) HL Hs1).
Qed.

End WhenSaved.

(** X23.  From a boot on a storage each key of which is absent, unreadable
    or of the shape the script writes, and whatever the writes to storage
    do afterwards, no handler ever reads a property of [undefined]: every
    action leaves a state, in every state the page can be in. *)
Theorem no_undefined_in_browser (tz : Z) (s : State) (a : IO.Action) :
  IO.reachable tz s -> exists s', IO.step tz a s = Some s'.
Proof. intros Hr. apply step_defined. now apply (reachable_Shown tz). Qed.

Lemma no_undefined_in_browser_witness :
  exists s',
    IO.step IST (IO.Tick (IO.mkFiring 1000 1000 false false false))
            started478
    = Some s'.
Proof.
  apply (no_undefined_in_browser IST started478).
  apply (IO.reach_step IST (IO.Start 0) page478 started478);
    [|reflexivity].
  exact (IO.reach_boot IST 0 emptyStorage "4" "7" "8" "Pause").
Defined.

(** X24.  As long as no reset has its write of the summaries throw, the
    engine runs exactly when a session is active: this holds after every
    sequence of actions from a boot on a storage each key of which is
    absent, unreadable or of the shape the script writes, the writes of
    the firings and of the clears succeeding or not. *)
Theorem flags_agree_when_resets_save (tz now : Z) (st : Storage)
    (inh hol exh lbl : string) (acts : list IO.Action) :
  forallb resetSaved acts = true ->
  exists s,
    IO.run tz acts (loadFromStorage now st (init inh hol exh lbl)) = Some s
    /\ running s = sessionActive s.
Proof.
  intros Hall.
  destruct (run_defined tz acts _ (Shown_boot now st inh hol exh lbl))
    as (s & Hrun & _).
  exists s. split; [exact Hrun|].
  apply (run_flags tz acts _ s Hall Hrun).
  unfold loadFromStorage. destruct st as [h ss p].
  destruct h, ss, p; reflexivity.
Qed.

Lemma flags_agree_when_resets_save_witness :
  exists s,
    IO.run IST [ IO.Start 0;
                 IO.Tick (IO.mkFiring 1000 1000 false false false);
                 IO.Reset 9000 true; IO.Start 10000 ]
           (loadFromStorage 0 emptyStorage (init "1" "7" "8" "Pause"))
    = Some s
    /\ running s = sessionActive s.
Proof.
  apply (flags_agree_when_resets_save IST 0 emptyStorage "1" "7" "8" "Pause").
  reflexivity.
Defined.

(** X25.  From boot on empty stores, as long as every firing has its write
    of the history succeed and reads the clock twice on the same local day
    (and fewer than 2^53 actions were taken, so that the counts are exact),
    every sequence of actions runs to a state in which the progress count
    of every day is the number of Exhale entries of the ledger stamped on
    that day. *)
Theorem progress_matches_ledger (tz : Z) (inh hol exh lbl : string)
    (acts : list IO.Action) :
  forallb (inStep tz) acts = true -> Z.of_nat (length acts) <= 2 ^ 53 ->
  exists s,
    IO.run tz acts (init inh hol exh lbl) = Some s
    /\ forall d, progressCount s d = exhalesOn tz d (historyData s).
Proof.
  intros Hall Hn.
  destruct (run_defined tz acts (init inh hol exh lbl)
              (Shown_boot 0 emptyStorage inh hol exh lbl))
    as (s & Hrun & _).
  exists s. split; [exact Hrun|].
  assert (H0 : Ledger tz 0 (init inh hol exh lbl))
    by (constructor; simpl; easy).
  apply (led_counts tz (0 + Z.of_nat (length acts)) s).
  apply (run_Ledger tz acts 0 (init inh hol exh lbl) s Hall ltac:(lia) H0 Hrun).
Qed.

Lemma progress_matches_ledger_witness :
  exists s,
    IO.run IST [ IO.Start 0; IO.Tick (firingAt 1000);
                 IO.Tick (firingAt 2000); IO.Tick (firingAt 3000) ]
           (init "1" "1" "1" "Pause")
    = Some s
    /\ forall d, progressCount s d = exhalesOn IST d (historyData s).
Proof.
  apply (progress_matches_ledger IST "1" "1" "1" "Pause").
  - reflexivity.
  - vm_compute. discriminate.
Defined.
